(** * Investment growth calculator: the projection loop and its properties

    The repository holds two Streamlit scripts, [investment_calc.py] and
    [investment_calc_branded_v2.py].  Both read four sidebar inputs and, on a
    press of the Calculate button, run a 360-month compounding loop that
    stores one snapshot per year, then show two slices of that series.

    The scripts compute on Python floats.  The embedding keeps the arithmetic
    behind an interface ([PyFloat]) so that the loop is written once, the way
    the source writes it.  Statements about the shape of the computation hold
    for every reading of that interface; the numerical ones are made in exact
    real arithmetic ([PyFloat_R]). *)

From Stdlib Require Import String Ascii DecimalString.
From Stdlib Require Import ZArith List Bool QArith Reals Lra Lia.
Import ListNotations.

Set Implicit Arguments.

(** ** Python numbers *)

(** The operations the scripts apply to floats.  [of_int] is the promotion of
    an [int] operand, [lit] the value of a decimal literal, [fpow] the float
    power operator, [feqb] the comparison [==], and [format_2f] the format
    specification [,.2f]. *)
Class PyFloat (F : Type) : Type := {
  of_int : Z -> F;
  lit : Q -> F;
  fadd : F -> F -> F;
  fsub : F -> F -> F;
  fmul : F -> F -> F;
  fdiv : F -> F -> F;
  fpow : F -> F -> F;
  feqb : F -> F -> bool;
  format_2f : F -> string
}.

Declare Scope py_scope.
Delimit Scope py_scope with py.
Infix "+" := fadd : py_scope.
Infix "-" := fsub : py_scope.
Infix "*" := fmul : py_scope.
Infix "/" := fdiv : py_scope.
Infix "**" := fpow (at level 30, right associativity) : py_scope.
Infix "==" := feqb (at level 70, no associativity) : py_scope.

(** [range(start, stop)] *)
Definition range (start stop : Z) : list Z :=
  map (fun i => (start + Z.of_nat i)%Z) (seq 0 (Z.to_nat (stop - start))).

(** [Series.isin(values)] on one cell *)
Definition isin (y : Z) (values : list Z) : bool :=
  existsb (Z.eqb y) values.

(** ** Data model shared by the two scripts *)

Section DataModel.
Variable F : Type.

(** One row of [data]: the dict appended at each year end. *)
Record Snapshot : Type := {
  Year : Z;
  Total_Amount : F;
  Monthly_Installment : F;
  Total_Capital_Contributed : F;
  Investment_Return : F
}.

(** The variables the loop reads and assigns. *)
Record Vars : Type := {
  current_balance : F;
  current_monthly_installment : F;
  total_capital : F;
  data : list Snapshot
}.

(** What one run of the script puts on the page below the title. *)
Inductive Page : Type :=
| NoResult
| Warning (message : string)
| Results (df milestone_df : list Snapshot)
          (display_df : list (Z * string))
          (stacked_df : list Snapshot).

(** [df[df['Year'].isin(values)]] *)
Definition rows_isin (df : list Snapshot) (values : list Z) : list Snapshot :=
  filter (fun row => isin (Year row) values) df.

End DataModel.

Arguments NoResult {F}.
Arguments Warning {F} message.
Arguments Year {F} _.
Arguments Total_Amount {F} _.
Arguments Monthly_Installment {F} _.
Arguments Total_Capital_Contributed {F} _.
Arguments Investment_Return {F} _.
Arguments current_balance {F} _.
Arguments current_monthly_installment {F} _.
Arguments total_capital {F} _.
Arguments data {F} _.

(** The three entries of [return_options]; the select box yields one key. *)
Inductive ReturnProfile : Type := Cash | Balanced | Equity.

(** ** investment_calc.py *)

Module InvestmentCalc.
Section Script.
Context {F : Type} `{PyFloat F}.
Local Open Scope py_scope.
Local Open Scope Z_scope.

Definition profile_key (p : ReturnProfile) : string :=
  match p with
  | Cash => "Cash (6%)"
  | Balanced => "Balanced (10%)"
  | Equity => "Equity (13%)"
  end.

Definition return_options (p : ReturnProfile) : F :=
  match p with
  | Cash => lit (6 # 100)
  | Balanced => lit (10 # 100)
  | Equity => lit (13 # 100)
  end.

Definition months : Z := 30 * 12.

Section Loop.
Variables initial_investment monthly_step escalation_rate annual_return : F.

(** The assignments before the loop. *)
Definition loop_init : Vars F :=
  {| current_balance := initial_investment;
     current_monthly_installment := monthly_step;
     total_capital := initial_investment;
     data := [] |}.

(** One iteration of [for m in range(1, months + 1)]. *)
Definition loop_body (v : Vars F) (m : Z) : Vars F :=
  let current_monthly_installment :=
    if (m >? 1) && ((m - 1) mod 12 =? 0)
    then (current_monthly_installment v * (of_int 1 + escalation_rate))%py
    else current_monthly_installment v in
  let total_capital := (total_capital v + current_monthly_installment)%py in
  let monthly_return :=
    ((of_int 1 + annual_return) ** (of_int 1 / of_int 12) - of_int 1)%py in
  let current_balance :=
    ((current_balance v + current_monthly_installment)
     * (of_int 1 + monthly_return))%py in
  let data :=
    if m mod 12 =? 0
    then data v ++
         [ {| Year := m / 12;
              Total_Amount := current_balance;
              Monthly_Installment := current_monthly_installment;
              Total_Capital_Contributed := total_capital;
              Investment_Return := (current_balance - total_capital)%py |} ]
    else data v in
  {| current_balance := current_balance;
     current_monthly_installment := current_monthly_installment;
     total_capital := total_capital;
     data := data |}.

(** The loop run over [range(1, stop)].  The script runs it with
    [stop = months + 1]; [for_loop (m + 1)] is the store at the end of
    month [m]. *)
Definition for_loop (stop : Z) : Vars F :=
  fold_left loop_body (range 1 stop) loop_init.

Definition projection : list (Snapshot F) :=
  data (for_loop (months + 1)).

End Loop.

Definition milestones : list Z := [1; 3; 5; 10; 20; 30].
Definition five_year_intervals : list Z := [5; 10; 15; 20; 25; 30].

(** [milestone_df.set_index("Year")[['Total Amount']]] with the column
    formatted as [f"R {x:,.2f}"]. *)
Definition display_rows (milestone_df : list (Snapshot F)) : list (Z * string) :=
  map (fun row => (Year row, ("R " ++ format_2f (Total_Amount row))%string))
      milestone_df.

(** The body of [if st.sidebar.button("Calculate"):]. *)
Definition calculate (initial_investment monthly_step escalation_input : F)
           (selected_option : ReturnProfile) : Page F :=
  let escalation_rate := (escalation_input / lit (100 # 1))%py in
  let annual_return := return_options selected_option in
  if (initial_investment == of_int 0)%py && (monthly_step == of_int 0)%py
  then Warning "Please enter a value greater than 0 for either the Initial Investment or the Monthly Installment."
  else
    let df := projection initial_investment monthly_step
                         escalation_rate annual_return in
    let milestone_df := rows_isin df milestones in
    let stacked_df := rows_isin df five_year_intervals in
    Results df milestone_df (display_rows milestone_df) stacked_df.

(** One run of the script: [button] is what [st.sidebar.button] returns. *)
Definition script (button : bool)
           (initial_investment monthly_step escalation_input : F)
           (selected_option : ReturnProfile) : Page F :=
  if button
  then calculate initial_investment monthly_step escalation_input selected_option
  else NoResult.

End Script.
End InvestmentCalc.

(** ** investment_calc_branded_v2.py *)

Module BrandedV2.
Section Script.
Context {F : Type} `{PyFloat F}.
Local Open Scope py_scope.
Local Open Scope Z_scope.

Definition return_options (p : ReturnProfile) : F :=
  match p with
  | Cash => lit (6 # 100)
  | Balanced => lit (10 # 100)
  | Equity => lit (13 # 100)
  end.

Definition months : Z := 30 * 12.

Section Loop.
Variables initial_investment monthly_step escalation_rate annual_return : F.

Definition loop_init : Vars F :=
  {| current_balance := initial_investment;
     current_monthly_installment := monthly_step;
     total_capital := initial_investment;
     data := [] |}.

(** One iteration: escalation at months 13, 25, 37, ..., capital out of
    pocket, geometric-mean monthly interest, year-end snapshot. *)
Definition loop_body (v : Vars F) (m : Z) : Vars F :=
  let installment :=
    if (m >? 1) && ((m - 1) mod 12 =? 0)
    then (current_monthly_installment v * (of_int 1 + escalation_rate))%py
    else current_monthly_installment v in
  let capital := (total_capital v + installment)%py in
  let monthly_return :=
    ((of_int 1 + annual_return) ** (of_int 1 / of_int 12) - of_int 1)%py in
  let balance :=
    ((current_balance v + installment) * (of_int 1 + monthly_return))%py in
  {| current_balance := balance;
     current_monthly_installment := installment;
     total_capital := capital;
     data :=
       if m mod 12 =? 0
       then data v ++
            [ {| Year := m / 12;
                 Total_Amount := balance;
                 Monthly_Installment := installment;
                 Total_Capital_Contributed := capital;
                 Investment_Return := (balance - capital)%py |} ]
       else data v |}.

Definition for_loop (stop : Z) : Vars F :=
  fold_left loop_body (range 1 stop) loop_init.

Definition projection : list (Snapshot F) :=
  data (for_loop (months + 1)).

End Loop.

Definition milestones : list Z := [1; 3; 5; 10; 20; 30].
Definition five_year_intervals : list Z := [5; 10; 15; 20; 25; 30].

Definition display_rows (milestone_df : list (Snapshot F)) : list (Z * string) :=
  map (fun row => (Year row, ("R " ++ format_2f (Total_Amount row))%string))
      milestone_df.

Definition calculate (initial_investment monthly_step escalation_input : F)
           (selected_option : ReturnProfile) : Page F :=
  let escalation_rate := (escalation_input / lit (100 # 1))%py in
  let annual_return := return_options selected_option in
  if (initial_investment == of_int 0)%py && (monthly_step == of_int 0)%py
  then Warning "Please enter a value greater than 0 for either the Initial Investment or the Monthly Installment."
  else
    let df := projection initial_investment monthly_step
                         escalation_rate annual_return in
    let milestone_df := rows_isin df milestones in
    let stacked_df := rows_isin df five_year_intervals in
    Results df milestone_df (display_rows milestone_df) stacked_df.

Definition script (button : bool)
           (initial_investment monthly_step escalation_input : F)
           (selected_option : ReturnProfile) : Page F :=
  if button
  then calculate initial_investment monthly_step escalation_input selected_option
  else NoResult.

End Script.
End BrandedV2.

(** ** Exact real arithmetic *)

(** Nearest integer, ties to even: the rounding of a decimal format. *)
Definition round_half_even (x : R) : Z :=
  let n := Int_part x in
  let d := (x - IZR n)%R in
  if Rlt_dec d (1 / 2) then n
  else if Rlt_dec (1 / 2) d then (n + 1)%Z
  else if Z.even n then n else (n + 1)%Z.

(** A comma after every third digit, on the digits from the units up. *)
Fixpoint thousands (k : nat) (units_first : list ascii) : list ascii :=
  match units_first with
  | [] => []
  | d :: ds =>
      if (k =? 3)%nat
      then ","%char :: d :: thousands 1 ds
      else d :: thousands (S k) ds
  end.

Definition digits (n : Z) : list ascii :=
  list_ascii_of_string (NilZero.string_of_uint (N.to_uint (Z.to_N n))).

(** The text of a count of hundredths: grouped integer part, a point, two
    decimals. *)
Definition format_cents (c : Z) : string :=
  let whole := rev (thousands 0 (rev (digits (c / 100)))) in
  let d1 := digits ((c mod 100) / 10) in
  let d0 := digits (c mod 10) in
  string_of_list_ascii (whole ++ "."%char :: d1 ++ d0).

(** [format(x, ",.2f")] of a real number. *)
Definition format_2f_R (x : R) : string :=
  let body := format_cents (round_half_even (100 * Rabs x)) in
  if Rlt_dec x 0 then ("-" ++ body)%string else body.

#[export] Instance PyFloat_R : PyFloat R := {|
  of_int := IZR;
  lit := Q2R;
  fadd := Rplus;
  fsub := Rminus;
  fmul := Rmult;
  fdiv := Rdiv;
  fpow := Rpower;
  feqb := fun x y => if Req_dec_T x y then true else false;
  format_2f := format_2f_R
|}.

(** ** Notions used in the statements *)

Section Notions.
Context {F : Type} `{PyFloat F}.

(** The factor the balance is multiplied by each month, as the source
    writes it: [1 + monthly_return]. *)
Definition monthly_factor (annual_return : F) : F :=
  (of_int 1 + ((of_int 1 + annual_return) ** (of_int 1 / of_int 12) - of_int 1))%py.

(** The row the loop appends at the end of year [y] when the store is [v]. *)
Definition year_end_row (v : Vars F) (y : Z) : Snapshot F :=
  {| Year := y;
     Total_Amount := current_balance v;
     Monthly_Installment := current_monthly_installment v;
     Total_Capital_Contributed := total_capital v;
     Investment_Return := (current_balance v - total_capital v)%py |}.

(** [escalate e k x]: [x] multiplied [k] times by [1 + e]. *)
Definition escalate (escalation_rate : F) (k : nat) (x : F) : F :=
  Nat.iter k (fun c => (c * (of_int 1 + escalation_rate))%py) x.

End Notions.

(** ** The five-year breakdown (both scripts) *)

Section Breakdown.
Context {F : Type}.

(** One row of [df_melted] as [melt] returns it. *)
Record MeltedRow : Type := {
  Melted_Year : Z;
  Component : string;
  Amount : F
}.

(** [stacked_df.melt(id_vars=['Year'], value_vars=['Total Capital
    Contributed', 'Investment Return'], var_name='Component',
    value_name='Amount')]: the rows of the first value column, then those
    of the second, each in the order of [stacked_df]. *)
Definition melt (stacked_df : list (Snapshot F)) : list MeltedRow :=
  map (fun row => {| Melted_Year := Year row;
                     Component := "Total Capital Contributed";
                     Amount := Total_Capital_Contributed row |})
      stacked_df
  ++ map (fun row => {| Melted_Year := Year row;
                        Component := "Investment Return";
                        Amount := Investment_Return row |})
         stacked_df.

(** The lambda applied to [Component] for the [SortOrder] column. *)
Definition SortOrder (x : string) : Z :=
  if String.eqb x "Total Capital Contributed" then 0%Z else 1%Z.

(** [df_melted] with its [SortOrder] column, from [df]. *)
Definition df_melted (df : list (Snapshot F)) : list (MeltedRow * Z) :=
  map (fun melted => (melted, SortOrder (Component melted)))
      (melt (rows_isin df InvestmentCalc.five_year_intervals)).

End Breakdown.

Arguments MeltedRow F : clear implicits.

(** ** Further notions used in the statements *)

(** The pairs of neighbours of a list, in order. *)
Definition consecutive {A : Type} (l : list A) : list (A * A) :=
  combine l (tl l).

(** A row with every amount multiplied by [k]. *)
Definition scale_row (k : R) (row : Snapshot R) : Snapshot R :=
  {| Year := Year row;
     Total_Amount := (k * Total_Amount row)%R;
     Monthly_Installment := (k * Monthly_Installment row)%R;
     Total_Capital_Contributed := (k * Total_Capital_Contributed row)%R;
     Investment_Return := (k * Investment_Return row)%R |}.

(** Two rows of the same year added amount by amount. *)
Definition add_rows (rows : Snapshot R * Snapshot R) : Snapshot R :=
  {| Year := Year (fst rows);
     Total_Amount := (Total_Amount (fst rows) + Total_Amount (snd rows))%R;
     Monthly_Installment :=
       (Monthly_Installment (fst rows) + Monthly_Installment (snd rows))%R;
     Total_Capital_Contributed :=
       (Total_Capital_Contributed (fst rows)
        + Total_Capital_Contributed (snd rows))%R;
     Investment_Return :=
       (Investment_Return (fst rows) + Investment_Return (snd rows))%R |}.

(** The height of the stacked bar drawn at year [y]: the amounts of the
    melted rows of that year, added up. *)
Definition stack_height (melted : list (MeltedRow R)) (y : Z) : R :=
  fold_right Rplus 0%R
             (map Amount (filter (fun row => (Melted_Year row =? y)%Z) melted)).

(** * Properties *)

(** ** Small runs *)

Example range_1_5 : range 1 5 = [1; 2; 3; 4]%Z.
Proof. reflexivity. Qed.

Example isin_milestones :
  map (fun y => isin y [1; 3; 5; 10; 20; 30]%Z) [1; 2; 3; 4; 30; 31]%Z
  = [true; false; true; false; true; false].
Proof. reflexivity. Qed.

Example format_cents_examples :
  map format_cents [5; 99950; 1238653; 123456789012]%Z
  = ["0.05"; "999.50"; "12,386.53"; "1,234,567,890.12"]%string.
Proof. reflexivity. Qed.

(** The first two months from a store, for any arithmetic: no escalation,
    two installments, no snapshot yet. *)
Example two_months (F : Type) (PF : PyFloat F) (i s e a : F) :
  let v := InvestmentCalc.for_loop i s e a 3 in
  current_monthly_installment v = s
  /\ total_capital v = ((i + s) + s)%py
  /\ current_balance v
     = (((i + s) * monthly_factor a + s) * monthly_factor a)%py
  /\ data v = [].
Proof. repeat split. Qed.

(** Month 12 stores the first row, month 13 escalates. *)
Example thirteen_months (F : Type) (PF : PyFloat F) (i s e a : F) :
  map Year (data (InvestmentCalc.for_loop i s e a 13)) = [1%Z]
  /\ current_monthly_installment (InvestmentCalc.for_loop i s e a 13) = s
  /\ current_monthly_installment (InvestmentCalc.for_loop i s e a 14)
     = (s * (of_int 1 + e))%py.
Proof. repeat split. Qed.

(** ** The loop, month by month *)

Lemma range_length (start stop : Z) :
  length (range start stop) = Z.to_nat (stop - start).
Proof.
  unfold range. now rewrite length_map, length_seq.
Qed.

Lemma range_empty (start : Z) : range start start = [].
Proof.
  unfold range. now rewrite Z.sub_diag.
Qed.

Lemma range_snoc (start stop : Z) :
  (start <= stop)%Z -> range start (stop + 1) = range start stop ++ [stop].
Proof.
  intros Hle. unfold range.
  replace (Z.to_nat (stop + 1 - start)) with (S (Z.to_nat (stop - start))) by lia.
  rewrite seq_S, map_app. cbn [map Nat.add]. do 2 f_equal. lia.
Qed.

Lemma range_app (start mid stop : Z) :
  (start <= mid <= stop)%Z ->
  range start stop = range start mid ++ range mid stop.
Proof.
  intros [Hlo Hhi].
  replace stop with (mid + Z.of_nat (Z.to_nat (stop - mid)))%Z by lia.
  induction (Z.to_nat (stop - mid)) as [|n IH].
  - now rewrite Z.add_0_r, range_empty, app_nil_r.
  - replace (mid + Z.of_nat (S n))%Z with (mid + Z.of_nat n + 1)%Z by lia.
    rewrite !range_snoc by lia. now rewrite IH, app_assoc.
Qed.

Lemma range_In (start stop y : Z) :
  In y (range start stop) <-> (start <= y < stop)%Z.
Proof.
  unfold range. rewrite in_map_iff. split.
  - intros (k & <- & Hk). apply in_seq in Hk. lia.
  - intros Hy. exists (Z.to_nat (y - start)). split; [lia|].
    apply in_seq. lia.
Qed.

Lemma range_nth_error (start stop : Z) (k : nat) :
  (Z.of_nat k < stop - start)%Z ->
  nth_error (range start stop) k = Some (start + Z.of_nat k)%Z.
Proof.
  intros Hk. unfold range.
  rewrite nth_error_map, nth_error_seq.
  destruct (Nat.ltb_spec k (Z.to_nat (stop - start))); [reflexivity | lia].
Qed.

Section LoopTheory.
Context {F : Type} `{PyFloat F}.
Variables initial_investment monthly_step escalation_rate annual_return : F.

Let for_loop := InvestmentCalc.for_loop
                  initial_investment monthly_step escalation_rate annual_return.
Let loop_body := InvestmentCalc.loop_body (F:=F) escalation_rate annual_return.

Lemma for_loop_start :
  for_loop 1 = InvestmentCalc.loop_init initial_investment monthly_step.
Proof. reflexivity. Qed.

Lemma for_loop_step (m : Z) :
  (1 <= m)%Z -> for_loop (m + 1) = loop_body (for_loop m) m.
Proof.
  intros Hm. unfold for_loop, InvestmentCalc.for_loop.
  rewrite range_snoc by assumption.
  now rewrite fold_left_app.
Qed.

(** The store at the end of month [m] is a stage of the run the script
    makes: the remaining months are run from it. *)
Lemma for_loop_prefix (m : Z) :
  (0 <= m <= InvestmentCalc.months)%Z ->
  for_loop (InvestmentCalc.months + 1)
  = fold_left loop_body (range (m + 1) (InvestmentCalc.months + 1))
              (for_loop (m + 1)).
Proof.
  intros Hm. unfold for_loop, InvestmentCalc.for_loop.
  rewrite (range_app (start:=1) (mid:=m + 1) (stop:=InvestmentCalc.months + 1))
    by lia.
  apply fold_left_app.
Qed.

Lemma loop_body_balance (v : Vars F) (m : Z) :
  current_balance (loop_body v m)
  = ((current_balance v + current_monthly_installment (loop_body v m))
     * monthly_factor annual_return)%py.
Proof. reflexivity. Qed.

Lemma loop_body_capital (v : Vars F) (m : Z) :
  total_capital (loop_body v m)
  = (total_capital v + current_monthly_installment (loop_body v m))%py.
Proof. reflexivity. Qed.

Lemma loop_body_installment (v : Vars F) (m : Z) :
  current_monthly_installment (loop_body v m)
  = if ((m >? 1) && ((m - 1) mod 12 =? 0))%Z
    then (current_monthly_installment v * (of_int 1 + escalation_rate))%py
    else current_monthly_installment v.
Proof. reflexivity. Qed.

Lemma loop_body_data (v : Vars F) (m : Z) :
  data (loop_body v m)
  = if (m mod 12 =? 0)%Z
    then data v ++ [year_end_row (loop_body v m) (m / 12)]
    else data v.
Proof.
  unfold loop_body, InvestmentCalc.loop_body. cbn [data].
  destruct (m mod 12 =? 0)%Z; reflexivity.
Qed.

(** The rows stored by the end of month [n] are the year-end rows of the
    completed years, in order. *)
Lemma data_rows (n : nat) :
  data (for_loop (Z.of_nat n + 1))
  = map (fun y => year_end_row (for_loop (12 * y + 1)) y)
        (range 1 (Z.of_nat n / 12 + 1)).
Proof.
  induction n as [|n IH].
  - reflexivity.
  - replace (Z.of_nat (S n)) with (Z.of_nat n + 1)%Z by lia.
    set (m := (Z.of_nat n + 1)%Z) in *.
    assert (Hm : (1 <= m)%Z) by lia.
    rewrite for_loop_step by assumption.
    rewrite loop_body_data, IH.
    replace (Z.of_nat n) with (m - 1)%Z by lia.
    destruct (Z.eqb_spec (m mod 12) 0) as [Hmod|Hmod].
    + assert (Hdiv : (m / 12 = (m - 1) / 12 + 1 /\ 12 * (m / 12) = m)%Z)
        by (split; Z.div_mod_to_equations; lia).
      destruct Hdiv as [Hdiv Hmul].
      rewrite Hdiv, (range_snoc (start:=1) (stop:=(m - 1) / 12 + 1)), map_app
        by (Z.div_mod_to_equations; lia).
      cbn [map]. rewrite <- Hdiv, Hmul.
      now rewrite <- for_loop_step by assumption.
    + now replace ((m - 1) / 12)%Z with (m / 12)%Z
        by (Z.div_mod_to_equations; lia).
Qed.

(** The installment in force during month [n]: the starting one, escalated
    once per completed year. *)
Lemma installment_closed_form (n : nat) :
  current_monthly_installment (for_loop (Z.of_nat n + 1))
  = escalate escalation_rate (Z.to_nat ((Z.of_nat n - 1) / 12)) monthly_step.
Proof.
  induction n as [|n IH].
  - reflexivity.
  - replace (Z.of_nat (S n)) with (Z.of_nat n + 1)%Z by lia.
    set (m := (Z.of_nat n + 1)%Z) in *.
    assert (Hm : (1 <= m)%Z) by lia.
    rewrite for_loop_step by assumption.
    rewrite loop_body_installment, IH.
    replace (Z.of_nat n - 1)%Z with (m - 2)%Z by lia.
    destruct (Z.gtb_spec m 1) as [Hgt|Hle]; cbn [andb].
    + destruct (Z.eqb_spec ((m - 1) mod 12) 0) as [Hmod|Hmod].
      * replace (Z.to_nat ((m - 1) / 12)) with (S (Z.to_nat ((m - 2) / 12)))
          by (Z.div_mod_to_equations; lia).
        reflexivity.
      * now replace ((m - 1) / 12)%Z with ((m - 2) / 12)%Z
          by (Z.div_mod_to_equations; lia).
    + now replace m with 1%Z by lia.
Qed.

(** The series the script builds: one row per year 1..30, the row of year
    [y] taken from the store at the end of month [12 * y]. *)
Lemma projection_rows :
  InvestmentCalc.projection
    initial_investment monthly_step escalation_rate annual_return
  = map (fun y => year_end_row (for_loop (12 * y + 1)) y) (range 1 31).
Proof.
  unfold InvestmentCalc.projection.
  exact (data_rows 360).
Qed.

(** The milestone slice keeps the rows of the six milestone years. *)
Lemma milestone_rows :
  rows_isin (InvestmentCalc.projection
               initial_investment monthly_step escalation_rate annual_return)
            InvestmentCalc.milestones
  = map (fun y => year_end_row (for_loop (12 * y + 1)) y)
        InvestmentCalc.milestones.
Proof.
  unfold rows_isin. rewrite projection_rows, filter_map_swap.
  f_equal.
Qed.

Lemma projection_year (y : Z) :
  (1 <= y <= 30)%Z ->
  nth_error (InvestmentCalc.projection
               initial_investment monthly_step escalation_rate annual_return)
            (Z.to_nat (y - 1))
  = Some (year_end_row (for_loop (12 * y + 1)) y).
Proof.
  intros Hy. rewrite projection_rows, nth_error_map, range_nth_error by lia.
  cbn [option_map].
  now replace (1 + Z.of_nat (Z.to_nat (y - 1)))%Z with y by lia.
Qed.

End LoopTheory.

(** ** The two scripts *)

Section SameCalculation.
Context {F : Type} `{PyFloat F}.

Lemma loop_body_same (escalation_rate annual_return : F) (v : Vars F) (m : Z) :
  InvestmentCalc.loop_body escalation_rate annual_return v m
  = BrandedV2.loop_body escalation_rate annual_return v m.
Proof. reflexivity. Qed.

Lemma for_loop_same (initial_investment monthly_step escalation_rate annual_return : F)
      (stop : Z) :
  InvestmentCalc.for_loop initial_investment monthly_step
                          escalation_rate annual_return stop
  = BrandedV2.for_loop initial_investment monthly_step
                       escalation_rate annual_return stop.
Proof.
  unfold InvestmentCalc.for_loop, BrandedV2.for_loop.
  change (BrandedV2.loop_init initial_investment monthly_step)
    with (InvestmentCalc.loop_init initial_investment monthly_step).
  generalize (InvestmentCalc.loop_init initial_investment monthly_step).
  induction (range 1 stop) as [|m l IH]; intros v; cbn [fold_left].
  - reflexivity.
  - now rewrite loop_body_same, IH.
Qed.

Lemma projection_same
      (initial_investment monthly_step escalation_rate annual_return : F) :
  InvestmentCalc.projection initial_investment monthly_step
                            escalation_rate annual_return
  = BrandedV2.projection initial_investment monthly_step
                         escalation_rate annual_return.
Proof.
  unfold InvestmentCalc.projection, BrandedV2.projection.
  now rewrite for_loop_same.
Qed.

Lemma return_options_same (p : ReturnProfile) :
  InvestmentCalc.return_options (F:=F) p = BrandedV2.return_options p.
Proof. reflexivity. Qed.

Lemma calculate_same (initial_investment monthly_step escalation_input : F)
      (selected_option : ReturnProfile) :
  InvestmentCalc.calculate initial_investment monthly_step
                           escalation_input selected_option
  = BrandedV2.calculate initial_investment monthly_step
                        escalation_input selected_option.
Proof.
  unfold InvestmentCalc.calculate, BrandedV2.calculate.
  destruct (_ && _)%bool; [reflexivity|].
  cbv zeta.
  generalize (projection_same initial_investment monthly_step
                (escalation_input / lit (100 # 1))%py
                (InvestmentCalc.return_options selected_option)).
  rewrite return_options_same.
  generalize (InvestmentCalc.projection initial_investment monthly_step
                (escalation_input / lit (100 # 1))%py
                (BrandedV2.return_options selected_option)).
  generalize (BrandedV2.projection initial_investment monthly_step
                (escalation_input / lit (100 # 1))%py
                (BrandedV2.return_options selected_option)).
  intros df' df ->.
  reflexivity.
Qed.

(** Without a press of Calculate the script shows neither a warning nor
    a projection. *)
Lemma script_not_pressed (initial_investment monthly_step escalation_input : F)
      (selected_option : ReturnProfile) :
  InvestmentCalc.script false initial_investment monthly_step
                        escalation_input selected_option
  = NoResult.
Proof. reflexivity. Qed.

(** C4. For every input, [investment_calc.py] and
    [investment_calc_branded_v2.py] build the same sequence of yearly
    snapshots, field for field, and put the same results on the page. *)
Theorem same_projection
        (initial_investment monthly_step escalation_rate annual_return : F) :
  InvestmentCalc.projection initial_investment monthly_step
                            escalation_rate annual_return
  = BrandedV2.projection initial_investment monthly_step
                         escalation_rate annual_return
  /\ forall button escalation_input selected_option,
       InvestmentCalc.script button initial_investment monthly_step
                             escalation_input selected_option
       = BrandedV2.script button initial_investment monthly_step
                          escalation_input selected_option.
Proof.
  split; [apply projection_same|].
  intros [|] escalation_input selected_option.
  - apply calculate_same.
  - reflexivity.
Qed.

End SameCalculation.

(** ** Shape of the projection, for every reading of the arithmetic *)

Section Shape.
Context {F : Type} `{PyFloat F}.
Variables initial_investment monthly_step escalation_rate annual_return : F.

Let for_loop := InvestmentCalc.for_loop
                  initial_investment monthly_step escalation_rate annual_return.
Let projection := InvestmentCalc.projection
                    initial_investment monthly_step escalation_rate annual_return.

(** C1. With [balance k] the balance at the end of month [k] (so
    [balance 0] is the balance before month 1) and [installment k] the
    installment in force in month [k]: the balance starts at the initial
    investment, and in every month [m] of 1..360 it becomes
    [(balance (m - 1) + installment m) * (1 + r)], where
    [r = (1 + annual_return) ** (1 / 12) - 1]. *)
Theorem balance_recurrence (m : Z) :
  (1 <= m <= 360)%Z ->
  let balance k := current_balance (for_loop (k + 1)) in
  let installment k := current_monthly_installment (for_loop (k + 1)) in
  let r := ((of_int 1 + annual_return) ** (of_int 1 / of_int 12) - of_int 1)%py in
  balance 0%Z = initial_investment
  /\ balance m = ((balance (m - 1)%Z + installment m) * (of_int 1 + r))%py.
Proof.
  intros Hm balance installment r. split; [reflexivity|].
  unfold balance, installment, for_loop.
  replace (m - 1 + 1)%Z with m by lia.
  rewrite for_loop_step by lia.
  apply loop_body_balance.
Qed.

(** C2. With [installment k] the installment in force in month [k]
    ([installment 0] is the starting installment): in every month [m] of
    1..360 the installment is the previous one times [1 + escalation_rate]
    when [m > 1] and [12] divides [m - 1] (months 13, 25, 37, ...), and the
    previous one unchanged otherwise; so it is the starting installment
    escalated once per completed block of 12 months. *)
Theorem installment_escalation (m : Z) :
  (1 <= m <= 360)%Z ->
  let installment k := current_monthly_installment (for_loop (k + 1)) in
  installment 0%Z = monthly_step
  /\ ((1 < m)%Z /\ ((m - 1) mod 12 = 0)%Z ->
      installment m = (installment (m - 1)%Z * (of_int 1 + escalation_rate))%py)
  /\ (~ ((1 < m)%Z /\ ((m - 1) mod 12 = 0)%Z) ->
      installment m = installment (m - 1)%Z)
  /\ installment m
     = escalate escalation_rate (Z.to_nat ((m - 1) / 12)) monthly_step.
Proof.
  intros Hm installment. unfold installment, for_loop.
  replace (m - 1 + 1)%Z with m by lia.
  split; [reflexivity|].
  assert (Hclosed :
            current_monthly_installment
              (InvestmentCalc.for_loop initial_investment monthly_step
                                       escalation_rate annual_return (m + 1))
            = escalate escalation_rate (Z.to_nat ((m - 1) / 12)) monthly_step).
  { rewrite <- (Z2Nat.id m) at 1 by lia.
    rewrite installment_closed_form. now rewrite Z2Nat.id by lia. }
  split; [|split]; [| |exact Hclosed].
  all: rewrite for_loop_step by lia; rewrite loop_body_installment.
  - intros [Hgt Hmod].
    destruct (Z.gtb_spec m 1); [|lia].
    destruct (Z.eqb_spec ((m - 1) mod 12) 0); [reflexivity|lia].
  - intros Hnot.
    destruct (Z.gtb_spec m 1); [|reflexivity].
    destruct (Z.eqb_spec ((m - 1) mod 12) 0); [|reflexivity].
    exfalso. apply Hnot. split; assumption.
Qed.

(** C6. In every yearly snapshot of the projection, whatever the input,
    the Investment Return field is the Total Amount field minus the Total
    Capital Contributed field. *)
Theorem investment_return_is_difference :
  Forall (fun row =>
            Investment_Return row
            = (Total_Amount row - Total_Capital_Contributed row)%py)
         projection.
Proof.
  unfold projection. rewrite projection_rows.
  apply Forall_map, Forall_forall. intros y _. reflexivity.
Qed.

(** C8. The projection is the data left by one pass of the loop body over
    [range(1, months + 1)], which is the 360 months 1, 2, ..., 360; it
    holds 30 snapshots, whose Year fields are 1, 2, ..., 30 in this
    order. *)
Theorem thirty_yearly_snapshots :
  projection
  = data (fold_left (InvestmentCalc.loop_body escalation_rate annual_return)
                    (range 1 (InvestmentCalc.months + 1))
                    (InvestmentCalc.loop_init initial_investment monthly_step))
  /\ length (range 1 (InvestmentCalc.months + 1)) = 360%nat
  /\ range 1 (InvestmentCalc.months + 1) = map Z.of_nat (seq 1 360)
  /\ length projection = 30%nat
  /\ map Year projection
     = [1; 2; 3; 4; 5; 6; 7; 8; 9; 10; 11; 12; 13; 14; 15;
        16; 17; 18; 19; 20; 21; 22; 23; 24; 25; 26; 27; 28; 29; 30]%Z.
Proof.
  split; [reflexivity|]. split; [reflexivity|]. split; [reflexivity|].
  unfold projection. rewrite projection_rows.
  split.
  - rewrite length_map, range_length. reflexivity.
  - rewrite map_map. cbn [Year year_end_row]. rewrite map_id. reflexivity.
Qed.

(** C9. The milestone summary is the rows of the projection whose Year is
    one of 1, 3, 5, 10, 20, 30: those six rows, in this order, each shown
    with its year and its formatted Total Amount. *)
Theorem milestone_summary :
  let milestone_df := rows_isin projection InvestmentCalc.milestones in
  map Year milestone_df = [1; 3; 5; 10; 20; 30]%Z
  /\ map Some milestone_df
     = map (fun y => nth_error projection (Z.to_nat (y - 1)))
           [1; 3; 5; 10; 20; 30]%Z
  /\ (forall row, In row milestone_df
                  <-> In row projection /\ In (Year row) [1; 3; 5; 10; 20; 30]%Z)
  /\ InvestmentCalc.display_rows milestone_df
     = map (fun row => (Year row, ("R " ++ format_2f (Total_Amount row))%string))
           milestone_df.
Proof.
  intros milestone_df.
  assert (Hrows : milestone_df
                  = map (fun y => year_end_row (for_loop (12 * y + 1)) y)
                        InvestmentCalc.milestones)
    by apply milestone_rows.
  split; [|split; [|split]].
  - rewrite Hrows, map_map. cbn [Year year_end_row]. apply map_id.
  - rewrite Hrows. unfold InvestmentCalc.milestones. cbn [map].
    unfold projection.
    rewrite !projection_year by lia. reflexivity.
  - intros row. unfold milestone_df, rows_isin. rewrite filter_In.
    enough (Hsel : isin (Year row) InvestmentCalc.milestones = true
                   <-> In (Year row) [1; 3; 5; 10; 20; 30]%Z) by tauto.
    unfold isin. rewrite existsb_exists. split.
    + intros (y & Hy & Heq). apply Z.eqb_eq in Heq. now subst y.
    + intros Hin. exists (Year row). split; [assumption | apply Z.eqb_refl].
  - reflexivity.
Qed.

End Shape.

(** The two recurrences at month 13, in exact real arithmetic. *)

Lemma balance_recurrence_witness :
  (1 <= 13 <= 360)%Z
  /\ current_balance (InvestmentCalc.for_loop 5000%R 1000%R 0.06%R 0.10%R (0 + 1))
     = 5000%R
  /\ current_balance (InvestmentCalc.for_loop 5000%R 1000%R 0.06%R 0.10%R (13 + 1))
     = ((current_balance
           (InvestmentCalc.for_loop 5000%R 1000%R 0.06%R 0.10%R (13 - 1 + 1))
         + current_monthly_installment
             (InvestmentCalc.for_loop 5000%R 1000%R 0.06%R 0.10%R (13 + 1)))
        * (of_int 1
           + ((of_int 1 + 0.10%R) ** (of_int 1 / of_int 12) - of_int 1)))%py.
Proof.
  assert (Hm : (1 <= 13 <= 360)%Z) by lia.
  split; [exact Hm|].
  exact (@balance_recurrence R PyFloat_R 5000%R 1000%R 0.06%R 0.10%R 13%Z Hm).
Defined.

Lemma installment_escalation_witness :
  (1 <= 13 <= 360)%Z
  /\ current_monthly_installment
       (InvestmentCalc.for_loop 5000%R 1000%R 0.06%R 0.10%R (13 + 1))
     = (current_monthly_installment
          (InvestmentCalc.for_loop 5000%R 1000%R 0.06%R 0.10%R (13 - 1 + 1))
        * (of_int 1 + 0.06%R))%py
  /\ current_monthly_installment
       (InvestmentCalc.for_loop 5000%R 1000%R 0.06%R 0.10%R (13 + 1))
     = (1000%R * (of_int 1 + 0.06%R))%py.
Proof.
  assert (Hm : (1 <= 13 <= 360)%Z) by lia.
  split; [exact Hm|].
  destruct (@installment_escalation R PyFloat_R 5000%R 1000%R 0.06%R 0.10%R 13%Z Hm)
    as (_ & Hescalated & _ & Hclosed).
  split; [|exact Hclosed].
  apply Hescalated. split; [lia | reflexivity].
Defined.

(** ** The projection in exact real arithmetic *)

Section Exact.
Local Open Scope R_scope.

Lemma monthly_factor_R (a : R) :
  monthly_factor a = Rpower (1 + a) (1 / 12).
Proof. unfold monthly_factor. cbn. lra. Qed.

Lemma monthly_factor_pos (a : R) : 0 < monthly_factor a.
Proof. rewrite monthly_factor_R. unfold Rpower. apply exp_pos. Qed.

(** Twelve months of the monthly factor compound to the annual rate. *)
Lemma monthly_factor_pow12 (a : R) :
  -1 < a -> monthly_factor a ^ 12 = 1 + a.
Proof.
  intros Ha. rewrite monthly_factor_R.
  rewrite <- Rpower_pow by (unfold Rpower; apply exp_pos).
  rewrite Rpower_mult.
  replace (1 / 12 * INR 12) with 1 by (simpl; lra).
  apply Rpower_1. lra.
Qed.

Lemma monthly_factor_ge_1 (a : R) : 0 <= a -> 1 <= monthly_factor a.
Proof.
  intros Ha. rewrite monthly_factor_R.
  apply Rle_trans with (Rpower (1 + a) 0).
  - rewrite Rpower_O; lra.
  - apply Rle_Rpower; lra.
Qed.

Lemma return_options_R (p : ReturnProfile) :
  InvestmentCalc.return_options (F:=R) p
  = match p with Cash => 0.06 | Balanced => 0.10 | Equity => 0.13 end.
Proof. destruct p; cbn; unfold Q2R; cbn; lra. Qed.

Lemma return_options_nonneg (p : ReturnProfile) :
  0 <= InvestmentCalc.return_options (F:=R) p.
Proof. rewrite return_options_R. destruct p; lra. Qed.

Variables initial_investment monthly_step escalation_rate annual_return : R.

Let after (n : nat) : Vars R :=
  InvestmentCalc.for_loop
    initial_investment monthly_step escalation_rate annual_return
    (Z.of_nat n + 1).

Lemma after_S (n : nat) :
  after (S n)
  = InvestmentCalc.loop_body escalation_rate annual_return
                             (after n) (Z.of_nat n + 1).
Proof.
  unfold after. rewrite <- for_loop_step by lia.
  f_equal. lia.
Qed.

Lemma after_S_installment (n : nat) :
  current_monthly_installment (after (S n))
  = current_monthly_installment (after n)
    \/ current_monthly_installment (after (S n))
       = current_monthly_installment (after n) * (1 + escalation_rate).
Proof.
  rewrite after_S, loop_body_installment.
  destruct (_ && _)%bool; [right | left]; reflexivity.
Qed.

Lemma after_S_capital (n : nat) :
  total_capital (after (S n))
  = total_capital (after n) + current_monthly_installment (after (S n)).
Proof. rewrite after_S. reflexivity. Qed.

Lemma after_S_balance (n : nat) :
  current_balance (after (S n))
  = (current_balance (after n) + current_monthly_installment (after (S n)))
    * monthly_factor annual_return.
Proof. rewrite after_S. reflexivity. Qed.

Lemma first_year_installment (n : nat) :
  (n <= 12)%nat -> current_monthly_installment (after n) = monthly_step.
Proof.
  intros Hn. unfold after. rewrite installment_closed_form.
  replace (Z.to_nat ((Z.of_nat n - 1) / 12)) with 0%nat
    by (Z.div_mod_to_equations; lia).
  reflexivity.
Qed.

(** The balance at the end of month 12, in closed form: the initial
    investment compounded twelve times and a geometric sum of twelve
    installments, each compounded from its month on. *)
Lemma first_year_balance :
  let g := monthly_factor annual_return in
  current_balance (after 12) * (g - 1)
  = initial_investment * g ^ 12 * (g - 1)
    + monthly_step * g * (g ^ 12 - 1).
Proof.
  intros g.
  rewrite !after_S_balance, !first_year_installment by lia.
  change (current_balance (after 0)) with initial_investment.
  fold g. ring.
Qed.

Hypothesis initial_nonneg : 0 <= initial_investment.
Hypothesis monthly_nonneg : 0 <= monthly_step.
Hypothesis escalation_nonneg : 0 <= escalation_rate.

Lemma installment_nonneg (n : nat) :
  0 <= current_monthly_installment (after n).
Proof.
  induction n as [|n IH].
  - exact monthly_nonneg.
  - destruct (after_S_installment n) as [-> | ->]; [assumption | nra].
Qed.

Lemma capital_step_le (n : nat) :
  total_capital (after n) <= total_capital (after (S n)).
Proof.
  rewrite after_S_capital. pose proof (installment_nonneg (S n)). lra.
Qed.

Lemma capital_monotone (n k : nat) :
  total_capital (after n) <= total_capital (after (n + k)).
Proof.
  induction k as [|k IH].
  - rewrite Nat.add_0_r. lra.
  - rewrite Nat.add_succ_r. pose proof (capital_step_le (n + k)). lra.
Qed.

Lemma capital_nonneg (n : nat) : 0 <= total_capital (after n).
Proof.
  pose proof (capital_monotone 0 n) as Hmono.
  cbn [Nat.add] in Hmono.
  apply Rle_trans with (2 := Hmono). exact initial_nonneg.
Qed.

Hypothesis return_nonneg : 0 <= annual_return.

Lemma balance_covers_capital (n : nat) :
  total_capital (after n) <= current_balance (after n).
Proof.
  induction n as [|n IH].
  - apply Rle_refl.
  - rewrite after_S_balance, after_S_capital.
    pose proof (monthly_factor_ge_1 return_nonneg) as Hg.
    pose proof (installment_nonneg (S n)) as Hc.
    pose proof (capital_nonneg n) as Ht.
    nra.
Qed.

End Exact.

(** ** The page, in exact real arithmetic *)

Section Validation.
Local Open Scope R_scope.
Variables initial_investment monthly_step escalation_input : R.
Variable selected_option : ReturnProfile.

Let df : list (Snapshot R) :=
  InvestmentCalc.projection initial_investment monthly_step
                            (escalation_input / 100)
                            (InvestmentCalc.return_options selected_option).

Lemma calculate_zero :
  initial_investment = 0 -> monthly_step = 0 ->
  InvestmentCalc.calculate initial_investment monthly_step
                           escalation_input selected_option
  = Warning "Please enter a value greater than 0 for either the Initial Investment or the Monthly Installment.".
Proof.
  intros Hi Hm. unfold InvestmentCalc.calculate. cbn [feqb of_int PyFloat_R].
  destruct (Req_dec_T initial_investment 0) as [_|Hne]; [|contradiction].
  destruct (Req_dec_T monthly_step 0) as [_|Hne]; [|contradiction].
  reflexivity.
Qed.

Lemma calculate_nonzero :
  initial_investment <> 0 \/ monthly_step <> 0 ->
  InvestmentCalc.calculate initial_investment monthly_step
                           escalation_input selected_option
  = Results df
            (rows_isin df InvestmentCalc.milestones)
            (InvestmentCalc.display_rows (rows_isin df InvestmentCalc.milestones))
            (rows_isin df InvestmentCalc.five_year_intervals).
Proof.
  intros Hnz. unfold InvestmentCalc.calculate.
  cbn [feqb of_int lit fdiv PyFloat_R].
  replace (Q2R (100 # 1)) with 100 by (unfold Q2R; cbn; lra).
  fold df.
  destruct (Req_dec_T initial_investment 0) as [Hi|Hi];
    destruct (Req_dec_T monthly_step 0) as [Hm|Hm];
    cbn [andb]; try reflexivity.
  exfalso. destruct Hnz; contradiction.
Qed.

End Validation.

(** C5. On a press of Calculate with inputs that are not negative: the
    page is a warning exactly when the initial investment and the monthly
    installment are both zero, and then it carries no projection; when one
    of them is positive the page carries the 30-row projection, its two
    slices, and no warning. *)
Theorem zero_input_validation
        (initial_investment monthly_step escalation_input : R)
        (selected_option : ReturnProfile) :
  (0 <= initial_investment)%R -> (0 <= monthly_step)%R ->
  let page := InvestmentCalc.script true initial_investment monthly_step
                                    escalation_input selected_option in
  let df := InvestmentCalc.projection
              initial_investment monthly_step (escalation_input / 100)%R
              (InvestmentCalc.return_options selected_option) in
  ((exists message, page = Warning message)
   <-> initial_investment = 0%R /\ monthly_step = 0%R)
  /\ ((0 < initial_investment)%R \/ (0 < monthly_step)%R ->
      page = Results df
                     (rows_isin df InvestmentCalc.milestones)
                     (InvestmentCalc.display_rows
                        (rows_isin df InvestmentCalc.milestones))
                     (rows_isin df InvestmentCalc.five_year_intervals)
      /\ length df = 30%nat).
Proof.
  intros Hi Hm page df. unfold page, InvestmentCalc.script.
  split.
  - split.
    + intros [message Hpage].
      destruct (Req_dec_T initial_investment 0) as [Hi0|Hi0];
        destruct (Req_dec_T monthly_step 0) as [Hm0|Hm0];
        [split; assumption | | |];
        rewrite calculate_nonzero in Hpage by tauto; discriminate Hpage.
    + intros [Hi0 Hm0]. eexists. apply calculate_zero; assumption.
  - intros Hpos. split.
    + apply calculate_nonzero. destruct Hpos; [left | right]; lra.
    + unfold df. rewrite projection_rows, length_map, range_length.
      reflexivity.
Qed.

Lemma zero_input_validation_witness :
  (0 <= 0)%R /\ (0 <= 1000)%R
  /\ ((exists message,
         InvestmentCalc.script true 0%R 1000%R 6%R Cash = Warning message)
      <-> 0%R = 0%R /\ 1000%R = 0%R)
  /\ length (InvestmentCalc.projection
               0%R 1000%R (6 / 100)%R
               (InvestmentCalc.return_options Cash)) = 30%nat.
Proof.
  assert (H0 : (0 <= 0)%R) by lra.
  assert (H1 : (0 <= 1000)%R) by lra.
  split; [exact H0|]. split; [exact H1|].
  destruct (@zero_input_validation 0%R 1000%R 6%R Cash H0 H1) as [Hiff Hres].
  split; [exact Hiff|].
  apply Hres. right. lra.
Defined.

(** C7. With an initial investment, a monthly installment and an
    escalation rate that are not negative, the Total Capital Contributed of
    the snapshot of year [y] is at most that of the snapshot of year
    [y + 1], for every [y] of 1..29. *)
Theorem capital_non_decreasing
        (initial_investment monthly_step escalation_rate annual_return : R)
        (y : Z) :
  (0 <= initial_investment)%R -> (0 <= monthly_step)%R ->
  (0 <= escalation_rate)%R ->
  (1 <= y <= 29)%Z ->
  let df := InvestmentCalc.projection initial_investment monthly_step
                                      escalation_rate annual_return in
  exists row next,
    nth_error df (Z.to_nat (y - 1)) = Some row
    /\ nth_error df (Z.to_nat y) = Some next
    /\ Year row = y /\ Year next = (y + 1)%Z
    /\ (Total_Capital_Contributed row <= Total_Capital_Contributed next)%R.
Proof.
  intros Hi Hm He Hy df. unfold df.
  eexists. eexists.
  split; [apply projection_year; lia|].
  split.
  { replace (Z.to_nat y) with (Z.to_nat (y + 1 - 1)) by lia.
    apply projection_year. lia. }
  split; [reflexivity|]. split; [reflexivity|].
  cbn [Total_Capital_Contributed year_end_row].
  replace (12 * y + 1)%Z with (Z.of_nat (Z.to_nat (12 * y)) + 1)%Z by lia.
  replace (12 * (y + 1) + 1)%Z
    with (Z.of_nat (Z.to_nat (12 * y) + 12) + 1)%Z by lia.
  apply capital_monotone; assumption.
Qed.

Lemma capital_non_decreasing_witness :
  (0 <= 5000)%R /\ (0 <= 1000)%R /\ (0 <= 0.06)%R /\ (1 <= 29 <= 29)%Z
  /\ exists row next,
       nth_error (InvestmentCalc.projection 5000%R 1000%R 0.06%R 0.10%R)
                 (Z.to_nat (29 - 1)) = Some row
       /\ nth_error (InvestmentCalc.projection 5000%R 1000%R 0.06%R 0.10%R)
                    (Z.to_nat 29) = Some next
       /\ Year row = 29%Z /\ Year next = (29 + 1)%Z
       /\ (Total_Capital_Contributed row <= Total_Capital_Contributed next)%R.
Proof.
  assert (Hi : (0 <= 5000)%R) by lra.
  assert (Hm : (0 <= 1000)%R) by lra.
  assert (He : (0 <= 0.06)%R) by lra.
  assert (Hy : (1 <= 29 <= 29)%Z) by lia.
  repeat (split; [assumption|]).
  exact (@capital_non_decreasing 5000%R 1000%R 0.06%R 0.10%R 29%Z Hi Hm He Hy).
Defined.

(** C10. With an initial investment, a monthly installment and an
    escalation rate that are not negative and one of the three return
    profiles, every snapshot has a Total Amount at least its Total Capital
    Contributed, and an Investment Return that is not negative. *)
Theorem return_never_negative
        (initial_investment monthly_step escalation_rate : R)
        (selected_option : ReturnProfile) :
  (0 <= initial_investment)%R -> (0 <= monthly_step)%R ->
  (0 <= escalation_rate)%R ->
  Forall (fun row =>
            (Total_Capital_Contributed row <= Total_Amount row)%R
            /\ (0 <= Investment_Return row)%R)
         (InvestmentCalc.projection
            initial_investment monthly_step escalation_rate
            (InvestmentCalc.return_options selected_option)).
Proof.
  intros Hi Hm He.
  rewrite projection_rows. apply Forall_map, Forall_forall.
  intros y Hy. apply range_In in Hy.
  cbn [Total_Capital_Contributed Total_Amount Investment_Return year_end_row].
  cbn [fsub PyFloat_R].
  replace (12 * y + 1)%Z with (Z.of_nat (Z.to_nat (12 * y)) + 1)%Z by lia.
  pose proof (@balance_covers_capital
                initial_investment monthly_step escalation_rate
                (InvestmentCalc.return_options selected_option)
                Hi Hm He (return_options_nonneg selected_option)
                (Z.to_nat (12 * y))) as Hcover.
  split; lra.
Qed.

Lemma return_never_negative_witness :
  (0 <= 5000)%R /\ (0 <= 1000)%R /\ (0 <= 0.06)%R
  /\ Forall (fun row =>
               (Total_Capital_Contributed row <= Total_Amount row)%R
               /\ (0 <= Investment_Return row)%R)
            (InvestmentCalc.projection
               5000%R 1000%R 0.06%R (InvestmentCalc.return_options Equity)).
Proof.
  assert (Hi : (0 <= 5000)%R) by lra.
  assert (Hm : (0 <= 1000)%R) by lra.
  assert (He : (0 <= 0.06)%R) by lra.
  repeat (split; [assumption|]).
  exact (@return_never_negative 5000%R 1000%R 0.06%R Equity Hi Hm He).
Defined.

(** ** The worked example: nothing up front, 1000 a month, the Cash profile *)

Section WorkedExample.
Local Open Scope R_scope.

Lemma round_half_even_near (x : R) (z : Z) :
  IZR z - 1 / 2 < x < IZR z + 1 / 2 -> round_half_even x = z.
Proof.
  intros [Hlo Hhi]. unfold round_half_even. cbv zeta.
  destruct (Rle_lt_dec (IZR z) x) as [Hge|Hlt].
  - assert (Hint : Int_part x = z)
      by (symmetry; apply Int_part_spec; lra).
    rewrite Hint.
    destruct (Rlt_dec (x - IZR z) (1 / 2)); [reflexivity | lra].
  - assert (Hint : Int_part x = (z - 1)%Z)
      by (symmetry; apply Int_part_spec; rewrite minus_IZR; lra).
    rewrite Hint, minus_IZR.
    destruct (Rlt_dec (x - (IZR z - 1)) (1 / 2)); [lra|].
    destruct (Rlt_dec (1 / 2) (x - (IZR z - 1))); [lia | lra].
Qed.

(** A real number that is not negative and lies strictly within half a
    hundredth of [c] hundredths is printed as [c] hundredths. *)
Lemma format_2f_R_cents (x : R) (c : Z) :
  0 <= x -> IZR c - 1 / 2 < 100 * x < IZR c + 1 / 2 ->
  format_2f_R x = format_cents c.
Proof.
  intros Hx Hc. unfold format_2f_R.
  rewrite Rabs_right by lra.
  rewrite (round_half_even_near _ Hc).
  destruct (Rlt_dec x 0); [lra | reflexivity].
Qed.

(** The monthly factor of the Cash profile, to ten decimals. *)
Lemma cash_monthly_factor_bounds :
  1.0048675505
  < monthly_factor (InvestmentCalc.return_options (F:=R) Cash)
  < 1.0048675506.
Proof.
  set (g := monthly_factor (InvestmentCalc.return_options (F:=R) Cash)).
  assert (Hpos : 0 < g) by apply monthly_factor_pos.
  assert (Hpow : g ^ 12 = 1.06).
  { unfold g. rewrite monthly_factor_pow12; rewrite return_options_R; lra. }
  split.
  - destruct (Rlt_le_dec 1.0048675505 g) as [Hlt|Hle]; [assumption|].
    assert (Hinc : g ^ 12 <= 1.0048675505 ^ 12) by (apply pow_incr; lra).
    rewrite Hpow in Hinc. exfalso. lra.
  - destruct (Rlt_le_dec g 1.0048675506) as [Hlt|Hle]; [assumption|].
    assert (Hinc : 1.0048675506 ^ 12 <= g ^ 12) by (apply pow_incr; lra).
    rewrite Hpow in Hinc. exfalso. lra.
Qed.

(** The balance after twelve installments of 1000 under the Cash profile,
    whatever the escalation rate: 12386.528... *)
Lemma first_year_total_bounds (escalation_rate : R) :
  12386.528
  < current_balance
      (InvestmentCalc.for_loop 0 1000 escalation_rate
                               (InvestmentCalc.return_options Cash)
                               (12 * 1 + 1))
  < 12386.529.
Proof.
  change (12 * 1 + 1)%Z with (Z.of_nat 12 + 1)%Z.
  pose proof cash_monthly_factor_bounds as [Hlo Hhi].
  pose proof (first_year_balance 0 1000 escalation_rate
                (InvestmentCalc.return_options Cash)) as Hbal.
  cbv zeta in Hbal.
  set (g := monthly_factor (InvestmentCalc.return_options (F:=R) Cash)) in *.
  set (total := current_balance _) in *.
  assert (Hpow : g ^ 12 = 1.06).
  { unfold g. rewrite monthly_factor_pow12; rewrite return_options_R; lra. }
  rewrite Hpow in Hbal.
  assert (Hclosed : total * (g - 1) = 60 * g) by lra.
  split; nra.
Qed.

End WorkedExample.

(** C3, as the claim states it, fails.  For initial investment 0, monthly
    installment 1000, escalation 0% and the 6% profile, the Total Amount of
    the year-1 snapshot lies between 12386.52 and 12386.54: it is more than
    50 away from 12,335.56. *)
Lemma first_year_total_not_12335_56 :
  let df := InvestmentCalc.projection
              0%R 1000%R (0 / 100)%R (InvestmentCalc.return_options Cash) in
  exists row,
    nth_error df 0 = Some row /\ Year row = 1%Z
    /\ (12386.52 < Total_Amount row < 12386.54)%R
    /\ ~ (Rabs (Total_Amount row - 12335.56) <= 50)%R.
Proof.
  intros df. unfold df. eexists.
  split; [exact (projection_year _ _ _ _ (y:=1) ltac:(lia))|].
  split; [reflexivity|].
  cbn [Total_Amount year_end_row].
  pose proof (first_year_total_bounds (0 / 100)%R) as [Hlo Hhi].
  split; [lra|].
  intros Habs. rewrite Rabs_pos_eq in Habs by lra. lra.
Qed.

(** C3, amended.  For initial investment 0, monthly installment 1000,
    escalation 0% and the 6% profile, a press of Calculate yields the
    projection; the Total Amount of its year-1 snapshot is 12,386.53 to the
    nearest hundredth, and the first row of the milestone table reads
    year 1, "R 12,386.53". *)
Theorem first_year_total_example :
  let df := InvestmentCalc.projection
              0%R 1000%R (0 / 100)%R (InvestmentCalc.return_options Cash) in
  let milestone_df := rows_isin df InvestmentCalc.milestones in
  let display_df := InvestmentCalc.display_rows milestone_df in
  InvestmentCalc.script true 0%R 1000%R 0%R Cash
  = Results df milestone_df display_df
            (rows_isin df InvestmentCalc.five_year_intervals)
  /\ (exists row,
        nth_error df 0 = Some row /\ Year row = 1%Z
        /\ (Rabs (Total_Amount row - 12386.53) <= 0.005)%R)
  /\ nth_error display_df 0 = Some (1%Z, "R 12,386.53"%string).
Proof.
  intros df milestone_df display_df.
  pose proof (first_year_total_bounds (0 / 100)%R) as [Hlo Hhi].
  split; [|split].
  - unfold InvestmentCalc.script. apply calculate_nonzero. right. lra.
  - unfold df. eexists.
    split; [exact (projection_year _ _ _ _ (y:=1) ltac:(lia))|].
    split; [reflexivity|].
    cbn [Total_Amount year_end_row].
    apply Rabs_le. lra.
  - unfold display_df, milestone_df, df.
    rewrite milestone_rows.
    cbn [InvestmentCalc.milestones InvestmentCalc.display_rows map nth_error
         Year Total_Amount year_end_row].
    cbn [format_2f PyFloat_R].
    rewrite (@format_2f_R_cents _ 1238653%Z) by lra.
    reflexivity.
Qed.

(** * Further properties of the scripts *)

(** ** Rows and slices, for every reading of the arithmetic *)

Section Slices.
Context {F : Type} `{PyFloat F}.
Variables initial_investment monthly_step escalation_rate annual_return : F.

Let for_loop := InvestmentCalc.for_loop
                  initial_investment monthly_step escalation_rate annual_return.
Let projection := InvestmentCalc.projection
                    initial_investment monthly_step escalation_rate annual_return.

(** The five-year slice keeps the rows of the six interval years. *)
Lemma stacked_rows :
  rows_isin projection InvestmentCalc.five_year_intervals
  = map (fun y => year_end_row (for_loop (12 * y + 1)) y)
        InvestmentCalc.five_year_intervals.
Proof.
  unfold rows_isin, projection. rewrite projection_rows, filter_map_swap.
  f_equal.
Qed.

(** X1. The slice charted in the five-year breakdown is the rows of the
    projection of years 5, 10, 15, 20, 25, 30: those six rows, in this
    order, and no other row. *)
Theorem five_year_slice :
  let stacked_df := rows_isin projection InvestmentCalc.five_year_intervals in
  map Year stacked_df = [5; 10; 15; 20; 25; 30]%Z
  /\ map Some stacked_df
     = map (fun y => nth_error projection (Z.to_nat (y - 1)))
           [5; 10; 15; 20; 25; 30]%Z
  /\ (forall row, In row stacked_df
                  <-> In row projection
                      /\ In (Year row) [5; 10; 15; 20; 25; 30]%Z).
Proof.
  intros stacked_df.
  assert (Hrows : stacked_df
                  = map (fun y => year_end_row (for_loop (12 * y + 1)) y)
                        InvestmentCalc.five_year_intervals)
    by apply stacked_rows.
  split; [|split].
  - rewrite Hrows, map_map. cbn [Year year_end_row]. apply map_id.
  - rewrite Hrows. unfold InvestmentCalc.five_year_intervals. cbn [map].
    unfold projection.
    rewrite !projection_year by lia. reflexivity.
  - intros row. unfold stacked_df, rows_isin. rewrite filter_In.
    assert (Hsel : isin (Year row) InvestmentCalc.five_year_intervals = true
                   <-> In (Year row) [5; 10; 15; 20; 25; 30]%Z).
    { unfold isin. rewrite existsb_exists. split.
      - intros (y & Hy & Heq). apply Z.eqb_eq in Heq. now subst y.
      - intros Hin. exists (Year row). split; [assumption | apply Z.eqb_refl]. }
    rewrite Hsel. reflexivity.
Qed.

(** X2. The Monthly Installment stored in the snapshot of year [y] is the
    starting installment multiplied [y - 1] times by
    [1 + escalation_rate]: the first year runs at the starting installment
    and each later year at one more escalation. *)
Theorem snapshot_installment :
  Forall (fun row =>
            Monthly_Installment row
            = escalate escalation_rate (Z.to_nat (Year row - 1)) monthly_step)
         projection.
Proof.
  unfold projection. rewrite projection_rows.
  apply Forall_map, Forall_forall. intros y Hy. apply range_In in Hy.
  cbn [Monthly_Installment Year year_end_row].
  replace (12 * y + 1)%Z with (Z.of_nat (Z.to_nat (12 * y)) + 1)%Z by lia.
  rewrite installment_closed_form. f_equal.
  Z.div_mod_to_equations. lia.
Qed.

(** X3. The melted frame of the five-year breakdown has twelve rows: the
    capital rows of years 5, 10, ..., 30 with SortOrder 0, then the return
    rows of the same years with SortOrder 1; the amounts are the Total
    Capital Contributed, then the Investment Return, of the slice. *)
Theorem melted_frame :
  let stacked_df := rows_isin projection InvestmentCalc.five_year_intervals in
  map (fun melted => (Melted_Year (fst melted), Component (fst melted),
                      snd melted))
      (df_melted projection)
  = [(5, "Total Capital Contributed", 0); (10, "Total Capital Contributed", 0);
     (15, "Total Capital Contributed", 0); (20, "Total Capital Contributed", 0);
     (25, "Total Capital Contributed", 0); (30, "Total Capital Contributed", 0);
     (5, "Investment Return", 1); (10, "Investment Return", 1);
     (15, "Investment Return", 1); (20, "Investment Return", 1);
     (25, "Investment Return", 1); (30, "Investment Return", 1)]%Z%string
  /\ map (fun melted => Amount (fst melted)) (df_melted projection)
     = map Total_Capital_Contributed stacked_df
       ++ map Investment_Return stacked_df.
Proof.
  intros stacked_df. split.
  - unfold df_melted. fold projection. rewrite stacked_rows.
    unfold melt, InvestmentCalc.five_year_intervals.
    cbn [map app fst snd Year year_end_row Melted_Year Component].
    reflexivity.
  - unfold df_melted. fold stacked_df. unfold melt.
    rewrite map_map. cbn [fst]. rewrite map_app, !map_map. reflexivity.
Qed.

End Slices.

(** ** Year blocks, in exact real arithmetic *)

Section YearBlocks.
Local Open Scope R_scope.

Lemma escalate_R (e : R) (k : nat) (x : R) :
  escalate e k x = x * (1 + e) ^ k.
Proof.
  unfold escalate. induction k as [|k IH].
  - cbn. ring.
  - rewrite Nat.iter_succ, IH. cbn. ring.
Qed.

Variables initial_investment monthly_step escalation_rate annual_return : R.

Local Notation "'after' n" :=
  (InvestmentCalc.for_loop
     initial_investment monthly_step escalation_rate annual_return
     (Z.of_nat n + 1)) (at level 10, n at level 9).
Local Notation "'g'" := (monthly_factor annual_return).

Lemma installment_R (n : nat) :
  current_monthly_installment (after n)
  = monthly_step * (1 + escalation_rate) ^ Z.to_nat ((Z.of_nat n - 1) / 12).
Proof. rewrite installment_closed_form. apply escalate_R. Qed.

(** In each of the twelve months that follow [y] whole years the
    installment is the starting one escalated [y] times. *)
Lemma block_installment (y k : nat) :
  (1 <= k <= 12)%nat ->
  current_monthly_installment (after (12 * y + k))
  = monthly_step * (1 + escalation_rate) ^ y.
Proof.
  intros Hk. rewrite installment_R. do 2 f_equal.
  Z.div_mod_to_equations. lia.
Qed.

Lemma block_capital (y k : nat) :
  (k <= 12)%nat ->
  total_capital (after (12 * y + k))
  = total_capital (after (12 * y))
    + INR k * (monthly_step * (1 + escalation_rate) ^ y).
Proof.
  induction k as [|k IH]; intros Hk.
  - rewrite Nat.add_0_r. cbn [INR]. ring.
  - rewrite Nat.add_succ_r, after_S_capital, <- Nat.add_succ_r.
    rewrite block_installment by lia.
    rewrite IH by lia. rewrite S_INR. ring.
Qed.

Lemma block_balance (y k : nat) :
  (k <= 12)%nat ->
  current_balance (after (12 * y + k)) * (g - 1)
  = current_balance (after (12 * y)) * g ^ k * (g - 1)
    + monthly_step * (1 + escalation_rate) ^ y * g * (g ^ k - 1).
Proof.
  induction k as [|k IH]; intros Hk.
  - rewrite Nat.add_0_r. cbn [pow]. ring.
  - rewrite Nat.add_succ_r, after_S_balance, <- Nat.add_succ_r.
    rewrite block_installment by lia.
    specialize (IH ltac:(lia)).
    set (b := current_balance (after (12 * y + k))) in *.
    set (c := monthly_step * (1 + escalation_rate) ^ y) in *.
    replace ((b + c) * g * (g - 1)) with (g * (b * (g - 1)) + c * g * (g - 1))
      by ring.
    rewrite IH. cbn [pow]. ring.
Qed.

(** A whole year: the capital grows by twelve installments. *)
Lemma year_capital (y : nat) :
  total_capital (after (12 * S y))
  = total_capital (after (12 * y))
    + 12 * (monthly_step * (1 + escalation_rate) ^ y).
Proof.
  replace (12 * S y)%nat with (12 * y + 12)%nat by lia.
  rewrite block_capital by lia.
  replace (INR 12) with 12 by (cbn; lra). reflexivity.
Qed.

(** A whole year: the balance grows by the annual return and by twelve
    installments compounded from their month on. *)
Lemma year_balance (y : nat) :
  -1 < annual_return ->
  current_balance (after (12 * S y)) * (g - 1)
  = current_balance (after (12 * y)) * (1 + annual_return) * (g - 1)
    + monthly_step * (1 + escalation_rate) ^ y * g * annual_return.
Proof.
  intros Ha.
  replace (12 * S y)%nat with (12 * y + 12)%nat by lia.
  rewrite block_balance by lia.
  rewrite (monthly_factor_pow12 Ha). ring.
Qed.

Lemma capital_closed_form (y : nat) :
  total_capital (after (12 * S y))
  = initial_investment
    + 12 * monthly_step * sum_f_R0 (fun j => (1 + escalation_rate) ^ j) y.
Proof.
  induction y as [|y IH].
  - rewrite year_capital. cbn [sum_f_R0 pow].
    change (total_capital (after (12 * 0))) with initial_investment. ring.
  - rewrite year_capital, IH. cbn [sum_f_R0]. ring.
Qed.

(** When the installment never changes, the balance has the closed form of
    a lump sum plus an annuity paid at the start of each month. *)
Lemma constant_installment_balance (c : R) :
  (forall n, current_monthly_installment (after n) = c) ->
  forall n,
    current_balance (after n) * (g - 1)
    = initial_investment * g ^ n * (g - 1) + c * g * (g ^ n - 1).
Proof.
  intros Hc n. induction n as [|n IH].
  - change (current_balance (after 0)) with initial_investment.
    cbn [pow]. ring.
  - rewrite after_S_balance, Hc.
    set (b := current_balance (after n)) in *.
    replace ((b + c) * g * (g - 1)) with (g * (b * (g - 1)) + c * g * (g - 1))
      by ring.
    rewrite IH. cbn [pow]. ring.
Qed.

Lemma monthly_factor_pow_years (y : nat) :
  -1 < annual_return -> g ^ (12 * y) = (1 + annual_return) ^ y.
Proof.
  intros Ha. rewrite pow_mult. now rewrite (monthly_factor_pow12 Ha).
Qed.

End YearBlocks.

(** ** Growth from month to month, in exact real arithmetic *)

Section Growth.
Local Open Scope R_scope.

Lemma monthly_factor_gt_1 (a : R) : 0 < a -> 1 < monthly_factor a.
Proof.
  intros Ha. rewrite monthly_factor_R.
  rewrite <- (Rpower_O (1 + a)) at 1 by lra.
  apply Rpower_lt; lra.
Qed.

Lemma return_options_pos (p : ReturnProfile) :
  0 < InvestmentCalc.return_options (F:=R) p.
Proof. rewrite return_options_R. destruct p; lra. Qed.

Variables initial_investment monthly_step escalation_rate annual_return : R.

Local Notation "'after' n" :=
  (InvestmentCalc.for_loop
     initial_investment monthly_step escalation_rate annual_return
     (Z.of_nat n + 1)) (at level 10, n at level 9).
Local Notation "'g'" := (monthly_factor annual_return).

Hypothesis initial_nonneg : 0 <= initial_investment.
Hypothesis monthly_nonneg : 0 <= monthly_step.
Hypothesis escalation_nonneg : 0 <= escalation_rate.
Hypothesis return_pos : 0 < annual_return.

Lemma balance_nonneg (n : nat) : 0 <= current_balance (after n).
Proof.
  apply Rle_trans with (total_capital (after n)).
  - apply capital_nonneg; assumption.
  - apply balance_covers_capital; lra.
Qed.

Lemma return_step_le (n : nat) :
  current_balance (after n) - total_capital (after n)
  <= current_balance (after (S n)) - total_capital (after (S n)).
Proof.
  rewrite after_S_balance, after_S_capital.
  pose proof (monthly_factor_gt_1 return_pos) as Hg.
  pose proof (balance_nonneg n) as Hb.
  pose proof (installment_nonneg initial_investment annual_return
                monthly_nonneg escalation_nonneg (S n)) as Hc.
  nra.
Qed.

Lemma return_monotone (n k : nat) :
  current_balance (after n) - total_capital (after n)
  <= current_balance (after (n + k)) - total_capital (after (n + k)).
Proof.
  induction k as [|k IH].
  - rewrite Nat.add_0_r. lra.
  - rewrite Nat.add_succ_r. pose proof (return_step_le (n + k)). lra.
Qed.

Hypothesis nonzero : 0 < initial_investment \/ 0 < monthly_step.

Lemma balance_step_lt (n : nat) :
  current_balance (after n) < current_balance (after (S n)).
Proof.
  rewrite after_S_balance.
  pose proof (monthly_factor_gt_1 return_pos) as Hg.
  pose proof (balance_nonneg n) as Hb.
  pose proof (installment_nonneg initial_investment annual_return
                monthly_nonneg escalation_nonneg (S n)) as Hc.
  destruct nonzero as [Hi|Hm].
  - assert (Hpos : 0 < current_balance (after n)).
    { apply Rlt_le_trans with initial_investment; [assumption|].
      apply Rle_trans with (total_capital (after n)).
      - exact (capital_monotone initial_investment annual_return
                 monthly_nonneg escalation_nonneg 0 n).
      - apply balance_covers_capital; lra. }
    nra.
  - assert (Hpos : 0 < current_monthly_installment (after (S n))).
    { rewrite installment_R. apply Rmult_lt_0_compat; [assumption|].
      apply pow_lt. lra. }
    nra.
Qed.

Lemma balance_increasing (n k : nat) :
  current_balance (after n) < current_balance (after (n + S k)).
Proof.
  induction k as [|k IH].
  - rewrite Nat.add_1_r. apply balance_step_lt.
  - rewrite Nat.add_succ_r.
    apply Rlt_trans with (1 := IH). apply balance_step_lt.
Qed.

End Growth.

(** ** Runs on different inputs, in exact real arithmetic *)

Section Linearity.
Local Open Scope R_scope.
Variables escalation_rate annual_return : R.

Local Notation "'run' i s n" :=
  (InvestmentCalc.for_loop i s escalation_rate annual_return (Z.of_nat n + 1))
    (at level 10, i at level 9, s at level 9, n at level 9).

(** The store of the sum of two inputs is the sum of their stores. *)
Lemma for_loop_add (i s i' s' : R) (n : nat) :
  current_monthly_installment (run (i + i') (s + s') n)
  = current_monthly_installment (run i s n)
    + current_monthly_installment (run i' s' n)
  /\ total_capital (run (i + i') (s + s') n)
     = total_capital (run i s n) + total_capital (run i' s' n)
  /\ current_balance (run (i + i') (s + s') n)
     = current_balance (run i s n) + current_balance (run i' s' n).
Proof.
  assert (Hinst : forall k,
             current_monthly_installment (run (i + i') (s + s') k)
             = current_monthly_installment (run i s k)
               + current_monthly_installment (run i' s' k))
    by (intros k; rewrite !installment_R; ring).
  split; [apply Hinst|].
  induction n as [|n [IHt IHb]].
  - split; reflexivity.
  - split.
    + rewrite !after_S_capital, IHt, Hinst. ring.
    + rewrite !after_S_balance, IHb, Hinst. ring.
Qed.

(** The store of an input multiplied by [k] is the store multiplied by
    [k]. *)
Lemma for_loop_scale (k i s : R) (n : nat) :
  current_monthly_installment (run (k * i) (k * s) n)
  = k * current_monthly_installment (run i s n)
  /\ total_capital (run (k * i) (k * s) n) = k * total_capital (run i s n)
  /\ current_balance (run (k * i) (k * s) n)
     = k * current_balance (run i s n).
Proof.
  assert (Hinst : forall m,
             current_monthly_installment (run (k * i) (k * s) m)
             = k * current_monthly_installment (run i s m))
    by (intros m; rewrite !installment_R; ring).
  split; [apply Hinst|].
  induction n as [|n [IHt IHb]].
  - split; reflexivity.
  - split.
    + rewrite !after_S_capital, IHt, Hinst. ring.
    + rewrite !after_S_balance, IHb, Hinst. ring.
Qed.

End Linearity.

(** ** Lists of rows *)

Lemma consecutive_map (A B : Type) (f : A -> B) (l : list A) :
  consecutive (map f l)
  = map (fun pair => (f (fst pair), f (snd pair))) (consecutive l).
Proof.
  unfold consecutive. destruct l as [|x l]; [reflexivity|].
  cbn [map tl]. revert x.
  induction l as [|y l IH]; intros x; [reflexivity|].
  cbn [map combine fst snd]. f_equal. apply IH.
Qed.

Lemma combine_map_same (A B C : Type) (f : A -> B) (f' : A -> C) (l : list A) :
  combine (map f l) (map f' l) = map (fun x => (f x, f' x)) l.
Proof.
  induction l as [|x l IH]; [reflexivity|].
  cbn [map combine]. now rewrite IH.
Qed.

Lemma consecutive_projection (F : Type) (PF : PyFloat F)
      (initial_investment monthly_step escalation_rate annual_return : F) :
  consecutive (InvestmentCalc.projection
                 initial_investment monthly_step escalation_rate annual_return)
  = map (fun y =>
           (year_end_row
              (InvestmentCalc.for_loop initial_investment monthly_step
                 escalation_rate annual_return (12 * y + 1)) y,
            year_end_row
              (InvestmentCalc.for_loop initial_investment monthly_step
                 escalation_rate annual_return (12 * (y + 1) + 1)) (y + 1)))
        (range 1 30).
Proof.
  rewrite projection_rows, consecutive_map.
  replace (consecutive (range 1 31))
    with (map (fun y => (y, y + 1)%Z) (range 1 30)) by reflexivity.
  rewrite map_map. apply map_ext. intros y. reflexivity.
Qed.

(** ** Closed forms and year-on-year accounting, in exact real arithmetic *)

Ltac each_year y Hy :=
  rewrite projection_rows; apply Forall_map, Forall_forall;
  intros y Hy; apply range_In in Hy;
  cbn [Year Total_Amount Monthly_Installment Total_Capital_Contributed
       Investment_Return year_end_row];
  replace (12 * y + 1)%Z
    with (Z.of_nat (12 * S (Z.to_nat (y - 1))) + 1)%Z by lia.

Ltac each_pair_of_years y Hy :=
  rewrite consecutive_projection; apply Forall_map, Forall_forall;
  intros y Hy; apply range_In in Hy;
  cbn [fst snd Year Total_Amount Monthly_Installment
       Total_Capital_Contributed Investment_Return year_end_row];
  replace (12 * y + 1)%Z with (Z.of_nat (12 * Z.to_nat y) + 1)%Z by lia;
  replace (12 * (y + 1) + 1)%Z
    with (Z.of_nat (12 * S (Z.to_nat y)) + 1)%Z by lia.

Lemma sum_of_ones (n : nat) :
  sum_f_R0 (fun j => ((1 + 0) ^ j)%R) n = INR (S n).
Proof.
  induction n as [|n IH].
  - cbn. lra.
  - cbn [sum_f_R0]. rewrite IH, Rplus_0_r, pow1, !S_INR. ring.
Qed.

Lemma lump_balance (i e a : R) (n : nat) :
  current_balance (InvestmentCalc.for_loop i 0%R e a (Z.of_nat n + 1))
  = (i * monthly_factor a ^ n)%R.
Proof.
  induction n as [|n IH].
  - cbn [pow]. rewrite Rmult_1_r. reflexivity.
  - rewrite after_S_balance, IH, installment_R. cbn [pow]. ring.
Qed.

(** X4. The Total Capital Contributed of the snapshot of year [y] is the
    initial investment plus twelve installments for each of the [y] years,
    the installment of year [j + 1] being the starting one times
    [(1 + escalation_rate) ^ j]. *)
Theorem capital_contributed_sum
        (initial_investment monthly_step escalation_rate annual_return : R) :
  Forall (fun row =>
            Total_Capital_Contributed row
            = initial_investment
              + 12 * monthly_step
                * sum_f_R0 (fun j => (1 + escalation_rate) ^ j)
                           (Z.to_nat (Year row - 1)))%R
         (InvestmentCalc.projection
            initial_investment monthly_step escalation_rate annual_return).
Proof.
  each_year y Hy. apply capital_closed_form.
Qed.

(** X5. Without escalation, for each return profile: every snapshot keeps
    the starting installment, its capital is the initial investment plus
    [12 * y] installments, and its Total Amount is the initial investment
    compounded [y] years plus the value of an annuity paid at the start of
    each month, [s * g * ((1 + a) ^ y - 1) / (g - 1)] with [g] the monthly
    factor. *)
Theorem no_escalation_closed_form
        (initial_investment monthly_step : R) (selected_option : ReturnProfile) :
  let a := InvestmentCalc.return_options (F:=R) selected_option in
  let g := monthly_factor a in
  Forall (fun row =>
            Monthly_Installment row = monthly_step
            /\ Total_Capital_Contributed row
               = initial_investment + 12 * IZR (Year row) * monthly_step
            /\ Total_Amount row
               = initial_investment * (1 + a) ^ Z.to_nat (Year row)
                 + monthly_step
                   * (g * ((1 + a) ^ Z.to_nat (Year row) - 1) / (g - 1)))%R
         (InvestmentCalc.projection initial_investment monthly_step 0%R a).
Proof.
  intros a g.
  assert (Hinst : forall n,
             current_monthly_installment
               (InvestmentCalc.for_loop initial_investment monthly_step 0%R a
                                        (Z.of_nat n + 1))
             = monthly_step)
    by (intros n; rewrite installment_R, Rplus_0_r, pow1; ring).
  assert (Ha : (-1 < a)%R)
    by (pose proof (return_options_pos selected_option); unfold a; lra).
  assert (Hg : (1 < g)%R)
    by (apply monthly_factor_gt_1, return_options_pos).
  each_year y Hy.
  split; [apply Hinst|]. split.
  - rewrite capital_closed_form, sum_of_ones, INR_IZR_INZ.
    replace (Z.of_nat (S (Z.to_nat (y - 1)))) with y by lia. ring.
  - replace (Z.to_nat y) with (S (Z.to_nat (y - 1))) by lia.
    pose proof (@constant_installment_balance
                  initial_investment monthly_step 0%R a monthly_step Hinst
                  (12 * S (Z.to_nat (y - 1)))) as Hbal.
    rewrite (@monthly_factor_pow_years a _ Ha) in Hbal. fold g in Hbal.
    apply Rmult_eq_reg_r with (g - 1)%R; [|lra].
    rewrite Hbal. field. lra.
Qed.

(** X6. With no monthly installment, for each return profile and whatever
    the escalation: the snapshot of year [y] holds the initial investment
    compounded [y] years at the annual return, the capital stays the
    initial investment, and the installment stays zero. *)
Theorem lump_sum_growth
        (initial_investment escalation_rate : R)
        (selected_option : ReturnProfile) :
  let a := InvestmentCalc.return_options (F:=R) selected_option in
  Forall (fun row =>
            Total_Amount row
            = initial_investment * (1 + a) ^ Z.to_nat (Year row)
            /\ Total_Capital_Contributed row = initial_investment
            /\ Monthly_Installment row = 0
            /\ Investment_Return row
               = initial_investment * ((1 + a) ^ Z.to_nat (Year row) - 1))%R
         (InvestmentCalc.projection initial_investment 0%R escalation_rate a).
Proof.
  intros a.
  assert (Ha : (-1 < a)%R)
    by (pose proof (return_options_pos selected_option); unfold a; lra).
  each_year y Hy.
  replace (Z.to_nat y) with (S (Z.to_nat (y - 1))) by lia.
  cbn [fsub PyFloat_R].
  rewrite lump_balance, (@monthly_factor_pow_years a _ Ha),
    capital_closed_form, installment_R.
  repeat split; ring.
Qed.

(** X7. Year-on-year accounting, for each return profile: from one
    snapshot to the next the capital grows by twelve of the next year's
    installments, and the Total Amount is the previous one grown by the
    annual return plus the next year's installment times
    [g * a / (g - 1)], the year-end value of twelve unit installments paid
    at the start of each month.  The first snapshot stands in the same
    relation to the initial investment. *)
Theorem year_on_year
        (initial_investment monthly_step escalation_rate : R)
        (selected_option : ReturnProfile) :
  let a := InvestmentCalc.return_options (F:=R) selected_option in
  let g := monthly_factor a in
  let df := InvestmentCalc.projection
              initial_investment monthly_step escalation_rate a in
  Forall (fun rows =>
            Total_Capital_Contributed (snd rows)
            = Total_Capital_Contributed (fst rows)
              + 12 * Monthly_Installment (snd rows)
            /\ Total_Amount (snd rows)
               = Total_Amount (fst rows) * (1 + a)
                 + Monthly_Installment (snd rows) * (g * a / (g - 1)))%R
         (consecutive df)
  /\ exists first,
       nth_error df 0 = Some first
       /\ (Total_Capital_Contributed first
           = initial_investment + 12 * Monthly_Installment first
           /\ Total_Amount first
              = initial_investment * (1 + a)
                + Monthly_Installment first * (g * a / (g - 1)))%R.
Proof.
  intros a g df.
  assert (Ha : (-1 < a)%R)
    by (pose proof (return_options_pos selected_option); unfold a; lra).
  assert (Hg : (1 < g)%R)
    by (apply monthly_factor_gt_1, return_options_pos).
  assert (Hyear : forall y : nat,
             let v := InvestmentCalc.for_loop
                        initial_investment monthly_step escalation_rate a
                        (Z.of_nat (12 * y) + 1) in
             let v' := InvestmentCalc.for_loop
                         initial_investment monthly_step escalation_rate a
                         (Z.of_nat (12 * S y) + 1) in
             (total_capital v'
              = total_capital v + 12 * current_monthly_installment v'
              /\ current_balance v'
                 = current_balance v * (1 + a)
                   + current_monthly_installment v' * (g * a / (g - 1)))%R).
  { intros y v v'. unfold v, v'.
    assert (Hinst : current_monthly_installment
                      (InvestmentCalc.for_loop
                         initial_investment monthly_step escalation_rate a
                         (Z.of_nat (12 * S y) + 1))
                    = (monthly_step * (1 + escalation_rate) ^ y)%R).
    { replace (12 * S y)%nat with (12 * y + 12)%nat by lia.
      apply block_installment. lia. }
    rewrite Hinst. split; [apply year_capital|].
    pose proof (@year_balance initial_investment monthly_step escalation_rate
                  a y Ha) as Hbal.
    fold g in Hbal.
    apply Rmult_eq_reg_r with (g - 1)%R; [|lra].
    rewrite Hbal. field. lra. }
  split.
  - unfold df. each_pair_of_years y Hy. apply Hyear.
  - eexists. split.
    + unfold df. exact (projection_year _ _ _ _ (y:=1) ltac:(lia)).
    + cbn [Total_Amount Monthly_Installment Total_Capital_Contributed
           year_end_row].
      change (12 * 1 + 1)%Z with (Z.of_nat (12 * 1) + 1)%Z.
      exact (Hyear 0%nat).
Qed.

(** ** Growth across the years *)

(** X8. With inputs that are not negative, one of the initial investment
    and the monthly installment positive, and any return profile, the Total
    Amount grows strictly from each snapshot to the next. *)
Theorem total_amount_increasing
        (initial_investment monthly_step escalation_rate : R)
        (selected_option : ReturnProfile) :
  (0 <= initial_investment)%R -> (0 <= monthly_step)%R ->
  (0 <= escalation_rate)%R ->
  (0 < initial_investment)%R \/ (0 < monthly_step)%R ->
  Forall (fun rows => (Total_Amount (fst rows) < Total_Amount (snd rows))%R)
         (consecutive
            (InvestmentCalc.projection
               initial_investment monthly_step escalation_rate
               (InvestmentCalc.return_options selected_option))).
Proof.
  intros Hi Hs He Hnz. each_pair_of_years y Hy.
  replace (12 * S (Z.to_nat y))%nat with (12 * Z.to_nat y + S 11)%nat by lia.
  apply balance_increasing; try assumption.
  apply return_options_pos.
Qed.

Lemma total_amount_increasing_witness :
  (0 <= 5000)%R /\ (0 <= 1000)%R /\ (0 <= 0.06)%R
  /\ ((0 < 5000)%R \/ (0 < 1000)%R)
  /\ Forall (fun rows => (Total_Amount (fst rows) < Total_Amount (snd rows))%R)
            (consecutive
               (InvestmentCalc.projection
                  5000%R 1000%R 0.06%R
                  (InvestmentCalc.return_options Balanced))).
Proof.
  assert (Hi : (0 <= 5000)%R) by lra.
  assert (Hs : (0 <= 1000)%R) by lra.
  assert (He : (0 <= 0.06)%R) by lra.
  assert (Hnz : (0 < 5000)%R \/ (0 < 1000)%R) by (left; lra).
  repeat (split; [assumption|]).
  exact (@total_amount_increasing 5000%R 1000%R 0.06%R Balanced Hi Hs He Hnz).
Defined.

(** X9. With inputs that are not negative and any return profile, the
    Investment Return never shrinks from one snapshot to the next. *)
Theorem investment_return_non_decreasing
        (initial_investment monthly_step escalation_rate : R)
        (selected_option : ReturnProfile) :
  (0 <= initial_investment)%R -> (0 <= monthly_step)%R ->
  (0 <= escalation_rate)%R ->
  Forall (fun rows =>
            (Investment_Return (fst rows) <= Investment_Return (snd rows))%R)
         (consecutive
            (InvestmentCalc.projection
               initial_investment monthly_step escalation_rate
               (InvestmentCalc.return_options selected_option))).
Proof.
  intros Hi Hs He. each_pair_of_years y Hy.
  cbn [fsub PyFloat_R].
  replace (12 * S (Z.to_nat y))%nat with (12 * Z.to_nat y + 12)%nat by lia.
  apply return_monotone; try assumption.
  apply return_options_pos.
Qed.

Lemma investment_return_non_decreasing_witness :
  (0 <= 5000)%R /\ (0 <= 1000)%R /\ (0 <= 0.06)%R
  /\ Forall (fun rows =>
               (Investment_Return (fst rows) <= Investment_Return (snd rows))%R)
            (consecutive
               (InvestmentCalc.projection
                  5000%R 1000%R 0.06%R
                  (InvestmentCalc.return_options Balanced))).
Proof.
  assert (Hi : (0 <= 5000)%R) by lra.
  assert (Hs : (0 <= 1000)%R) by lra.
  assert (He : (0 <= 0.06)%R) by lra.
  repeat (split; [assumption|]).
  exact (@investment_return_non_decreasing 5000%R 1000%R 0.06%R Balanced
           Hi Hs He).
Defined.

(** ** The projection as a function of the amounts put in *)

(** X10. Multiplying the initial investment and the monthly installment by
    [k] multiplies every amount of every snapshot by [k] and leaves the
    years as they are. *)
Theorem projection_scales
        (k initial_investment monthly_step escalation_rate annual_return : R) :
  InvestmentCalc.projection (k * initial_investment)%R (k * monthly_step)%R
                            escalation_rate annual_return
  = map (scale_row k)
        (InvestmentCalc.projection initial_investment monthly_step
                                   escalation_rate annual_return).
Proof.
  rewrite !projection_rows, map_map. apply map_ext_in.
  intros y Hy. apply range_In in Hy.
  unfold year_end_row, scale_row.
  cbn [Year Total_Amount Monthly_Installment Total_Capital_Contributed
       Investment_Return fsub PyFloat_R].
  replace (12 * y + 1)%Z with (Z.of_nat (Z.to_nat (12 * y)) + 1)%Z by lia.
  destruct (for_loop_scale escalation_rate annual_return k
              initial_investment monthly_step (Z.to_nat (12 * y)))
    as (Hinst & Hcap & Hbal).
  rewrite Hinst, Hcap, Hbal. f_equal. ring.
Qed.

(** X11. The projection of two inputs added together is the two
    projections added row by row: in particular a projection is that of
    its initial investment alone plus that of its installments alone. *)
Theorem projection_adds
        (initial_investment monthly_step initial_investment' monthly_step'
         escalation_rate annual_return : R) :
  InvestmentCalc.projection
    (initial_investment + initial_investment')%R
    (monthly_step + monthly_step')%R escalation_rate annual_return
  = map add_rows
        (combine
           (InvestmentCalc.projection initial_investment monthly_step
                                      escalation_rate annual_return)
           (InvestmentCalc.projection initial_investment' monthly_step'
                                      escalation_rate annual_return)).
Proof.
  rewrite !projection_rows, combine_map_same, map_map. apply map_ext_in.
  intros y Hy. apply range_In in Hy.
  unfold year_end_row, add_rows.
  cbn [fst snd Year Total_Amount Monthly_Installment
       Total_Capital_Contributed Investment_Return fsub PyFloat_R].
  replace (12 * y + 1)%Z with (Z.of_nat (Z.to_nat (12 * y)) + 1)%Z by lia.
  destruct (for_loop_add escalation_rate annual_return
              initial_investment monthly_step
              initial_investment' monthly_step' (Z.to_nat (12 * y)))
    as (Hinst & Hcap & Hbal).
  rewrite Hinst, Hcap, Hbal. f_equal. ring.
Qed.

(** X12. Putting in more never yields less: with an escalation rate that
    is not negative and any return profile, raising the initial investment
    or the monthly installment lowers no installment, no capital and no
    Total Amount of any year. *)
Theorem projection_monotone_in_inputs
        (initial_investment monthly_step initial_investment' monthly_step'
         escalation_rate : R) (selected_option : ReturnProfile) :
  (initial_investment <= initial_investment')%R ->
  (monthly_step <= monthly_step')%R ->
  (0 <= escalation_rate)%R ->
  let a := InvestmentCalc.return_options (F:=R) selected_option in
  Forall (fun rows =>
            (Monthly_Installment (fst rows) <= Monthly_Installment (snd rows)
             /\ Total_Capital_Contributed (fst rows)
                <= Total_Capital_Contributed (snd rows)
             /\ Total_Amount (fst rows) <= Total_Amount (snd rows))%R)
         (combine
            (InvestmentCalc.projection initial_investment monthly_step
                                       escalation_rate a)
            (InvestmentCalc.projection initial_investment' monthly_step'
                                       escalation_rate a)).
Proof.
  intros Hi Hs He a.
  rewrite !projection_rows, combine_map_same.
  apply Forall_map, Forall_forall. intros y Hy. apply range_In in Hy.
  cbn [fst snd Total_Amount Monthly_Installment Total_Capital_Contributed
       year_end_row].
  replace (12 * y + 1)%Z with (Z.of_nat (Z.to_nat (12 * y)) + 1)%Z by lia.
  set (n := Z.to_nat (12 * y)).
  replace initial_investment'
    with (initial_investment + (initial_investment' - initial_investment))%R
    by ring.
  replace monthly_step'
    with (monthly_step + (monthly_step' - monthly_step))%R by ring.
  destruct (for_loop_add escalation_rate a
              initial_investment monthly_step
              (initial_investment' - initial_investment)%R
              (monthly_step' - monthly_step)%R n)
    as (Hinst & Hcap & Hbal).
  rewrite Hinst, Hcap, Hbal.
  assert (Hdi : (0 <= initial_investment' - initial_investment)%R) by lra.
  assert (Hds : (0 <= monthly_step' - monthly_step)%R) by lra.
  set (di := (initial_investment' - initial_investment)%R) in *.
  set (ds := (monthly_step' - monthly_step)%R) in *.
  pose proof (@installment_nonneg di ds escalation_rate a Hds He n) as Hc.
  pose proof (@capital_nonneg di ds escalation_rate a Hdi Hds He n) as Ht.
  pose proof (@balance_covers_capital di ds escalation_rate a Hdi Hds He
                (return_options_nonneg selected_option) n) as Hb.
  repeat split; lra.
Qed.

Lemma projection_monotone_in_inputs_witness :
  (5000 <= 6000)%R /\ (1000 <= 1000)%R /\ (0 <= 0.06)%R
  /\ Forall (fun rows =>
               (Monthly_Installment (fst rows) <= Monthly_Installment (snd rows)
                /\ Total_Capital_Contributed (fst rows)
                   <= Total_Capital_Contributed (snd rows)
                /\ Total_Amount (fst rows) <= Total_Amount (snd rows))%R)
            (combine
               (InvestmentCalc.projection
                  5000%R 1000%R 0.06%R (InvestmentCalc.return_options Cash))
               (InvestmentCalc.projection
                  6000%R 1000%R 0.06%R (InvestmentCalc.return_options Cash))).
Proof.
  assert (Hi : (5000 <= 6000)%R) by lra.
  assert (Hs : (1000 <= 1000)%R) by lra.
  assert (He : (0 <= 0.06)%R) by lra.
  repeat (split; [assumption|]).
  exact (@projection_monotone_in_inputs 5000%R 1000%R 6000%R 1000%R 0.06%R
           Cash Hi Hs He).
Defined.

(** ** The five-year breakdown, in exact real arithmetic *)

Lemma melt_of_df_melted (F : Type) (df : list (Snapshot F)) :
  map fst (df_melted df)
  = melt (rows_isin df InvestmentCalc.five_year_intervals).
Proof.
  unfold df_melted. rewrite map_map. cbn [fst]. apply map_id.
Qed.

Lemma stack_height_year_end_rows (store : Z -> Vars R) :
  let stacked_df := map (fun y => year_end_row (store y) y)
                        [5; 10; 15; 20; 25; 30]%Z in
  Forall (fun row => stack_height (melt stacked_df) (Year row)
                     = Total_Amount row)
         stacked_df.
Proof.
  cbn [map].
  repeat (apply Forall_cons); [..|apply Forall_nil].
  all: unfold stack_height, melt.
  all: cbn [map app filter fold_right Z.eqb Pos.eqb
            Melted_Year Amount Year Total_Amount Total_Capital_Contributed
            Investment_Return year_end_row fsub PyFloat_R].
  all: ring.
Qed.

(** X13. In the five-year breakdown the two stacked segments of each year
    add up to that year's Total Amount: the bar of year [y] is as high as
    the balance at the end of year [y]. *)
Theorem stacked_bar_height
        (initial_investment monthly_step escalation_rate annual_return : R) :
  let df := InvestmentCalc.projection
              initial_investment monthly_step escalation_rate annual_return in
  Forall (fun row =>
            stack_height (map fst (df_melted df)) (Year row)
            = Total_Amount row)
         (rows_isin df InvestmentCalc.five_year_intervals).
Proof.
  intros df. rewrite melt_of_df_melted. unfold df.
  rewrite stacked_rows. unfold InvestmentCalc.five_year_intervals.
  exact (stack_height_year_end_rows
           (fun y => InvestmentCalc.for_loop
                       initial_investment monthly_step
                       escalation_rate annual_return (12 * y + 1))).
Qed.

Lemma df_melted_nonneg (df : list (Snapshot R)) :
  Forall (fun row =>
            (0 <= Total_Capital_Contributed row)%R
            /\ (0 <= Investment_Return row)%R)
         df ->
  Forall (fun melted => (0 <= Amount (fst melted))%R) (df_melted df).
Proof.
  intros Hrows. rewrite Forall_forall in Hrows.
  unfold df_melted. apply Forall_map. cbn [fst].
  unfold melt. apply Forall_app.
  split; apply Forall_map, Forall_forall; intros row Hrow;
    apply filter_In in Hrow; destruct Hrow as [Hrow _];
    cbn [Amount]; destruct (Hrows row Hrow) as [Hcap Hret]; assumption.
Qed.

(** X14. With inputs that are not negative and any return profile, no
    segment of the five-year breakdown is negative. *)
Theorem stacked_segments_nonneg
        (initial_investment monthly_step escalation_rate : R)
        (selected_option : ReturnProfile) :
  (0 <= initial_investment)%R -> (0 <= monthly_step)%R ->
  (0 <= escalation_rate)%R ->
  Forall (fun melted => (0 <= Amount (fst melted))%R)
         (df_melted
            (InvestmentCalc.projection
               initial_investment monthly_step escalation_rate
               (InvestmentCalc.return_options selected_option))).
Proof.
  intros Hi Hs He.
  set (a := InvestmentCalc.return_options (F:=R) selected_option).
  assert (Hrows :
            Forall (fun row =>
                      (0 <= Total_Capital_Contributed row)%R
                      /\ (0 <= Investment_Return row)%R)
                   (InvestmentCalc.projection
                      initial_investment monthly_step escalation_rate a)).
  { each_year y Hy. cbn [fsub PyFloat_R].
    pose proof (@capital_nonneg initial_investment monthly_step
                  escalation_rate a Hi Hs He
                  (12 * S (Z.to_nat (y - 1)))) as Ht.
    pose proof (@balance_covers_capital initial_investment monthly_step
                  escalation_rate a Hi Hs He
                  (return_options_nonneg selected_option)
                  (12 * S (Z.to_nat (y - 1)))) as Hb.
    split; lra. }
  apply df_melted_nonneg. exact Hrows.
Qed.

Lemma stacked_segments_nonneg_witness :
  (0 <= 5000)%R /\ (0 <= 1000)%R /\ (0 <= 0.06)%R
  /\ Forall (fun melted => (0 <= Amount (fst melted))%R)
            (df_melted
               (InvestmentCalc.projection
                  5000%R 1000%R 0.06%R (InvestmentCalc.return_options Equity))).
Proof.
  assert (Hi : (0 <= 5000)%R) by lra.
  assert (Hs : (0 <= 1000)%R) by lra.
  assert (He : (0 <= 0.06)%R) by lra.
  repeat (split; [assumption|]).
  exact (@stacked_segments_nonneg 5000%R 1000%R 0.06%R Equity Hi Hs He).
Defined.

(** ** From snapshot to snapshot, for every reading of the arithmetic *)

(** X15. From each snapshot to the next the Monthly Installment is
    multiplied exactly once by [1 + escalation_rate], and the first
    snapshot carries the starting installment. *)
Theorem snapshot_installment_step
        (F : Type) (PF : PyFloat F)
        (initial_investment monthly_step escalation_rate annual_return : F) :
  let df := InvestmentCalc.projection
              initial_investment monthly_step escalation_rate annual_return in
  Forall (fun rows =>
            Monthly_Installment (snd rows)
            = (Monthly_Installment (fst rows)
               * (of_int 1 + escalation_rate))%py)
         (consecutive df)
  /\ map Monthly_Installment (firstn 1 df) = [monthly_step].
Proof.
  intros df. split.
  - unfold df. rewrite consecutive_projection.
    apply Forall_map, Forall_forall. intros y Hy. apply range_In in Hy.
    cbn [fst snd Monthly_Installment year_end_row].
    replace (12 * y + 1)%Z with (Z.of_nat (Z.to_nat (12 * y)) + 1)%Z by lia.
    replace (12 * (y + 1) + 1)%Z
      with (Z.of_nat (Z.to_nat (12 * (y + 1))) + 1)%Z by lia.
    rewrite !installment_closed_form.
    replace (Z.to_nat ((Z.of_nat (Z.to_nat (12 * (y + 1))) - 1) / 12))
      with (S (Z.to_nat ((Z.of_nat (Z.to_nat (12 * y)) - 1) / 12)))
      by (Z.div_mod_to_equations; lia).
    unfold escalate. apply Nat.iter_succ.
  - unfold df. rewrite projection_rows.
    change (range 1 31) with (1%Z :: range 2 31).
    cbn [map firstn Monthly_Installment year_end_row].
    change (12 * 1 + 1)%Z with (Z.of_nat 12 + 1)%Z.
    now rewrite installment_closed_form.
Qed.

(** ** What the validation leaves to the loop *)

(** X16. With inputs that are not negative, one of the initial investment
    and the monthly installment positive, and any return profile, every
    snapshot has a positive Total Amount and a positive Total Capital
    Contributed. *)
Theorem amounts_positive
        (initial_investment monthly_step escalation_rate : R)
        (selected_option : ReturnProfile) :
  (0 <= initial_investment)%R -> (0 <= monthly_step)%R ->
  (0 <= escalation_rate)%R ->
  (0 < initial_investment)%R \/ (0 < monthly_step)%R ->
  Forall (fun row =>
            (0 < Total_Amount row)%R
            /\ (0 < Total_Capital_Contributed row)%R)
         (InvestmentCalc.projection
            initial_investment monthly_step escalation_rate
            (InvestmentCalc.return_options selected_option)).
Proof.
  intros Hi Hs He Hnz.
  set (a := InvestmentCalc.return_options (F:=R) selected_option).
  assert (Ha : (0 < a)%R) by apply return_options_pos.
  each_year y Hy.
  replace (12 * S (Z.to_nat (y - 1)))%nat
    with (S (12 * Z.to_nat (y - 1) + 11))%nat by lia.
  set (m := (12 * Z.to_nat (y - 1) + 11)%nat).
  split.
  - apply Rle_lt_trans
      with (current_balance
              (InvestmentCalc.for_loop initial_investment monthly_step
                 escalation_rate a (Z.of_nat m + 1))).
    + apply balance_nonneg; assumption.
    + apply balance_step_lt; assumption.
  - destruct Hnz as [Hpos|Hpos].
    + apply Rlt_le_trans with (1 := Hpos).
      exact (@capital_monotone initial_investment monthly_step
               escalation_rate a Hs He 0 (S m)).
    + rewrite after_S_capital.
      pose proof (@capital_nonneg initial_investment monthly_step
                    escalation_rate a Hi Hs He m) as Hcap.
      assert (Hinst : (0 < current_monthly_installment
                             (InvestmentCalc.for_loop
                                initial_investment monthly_step
                                escalation_rate a (Z.of_nat (S m) + 1)))%R).
      { rewrite installment_R. apply Rmult_lt_0_compat; [assumption|].
        apply pow_lt. lra. }
      lra.
Qed.

Lemma amounts_positive_witness :
  (0 <= 0)%R /\ (0 <= 1000)%R /\ (0 <= 0.06)%R
  /\ ((0 < 0)%R \/ (0 < 1000)%R)
  /\ Forall (fun row =>
               (0 < Total_Amount row)%R
               /\ (0 < Total_Capital_Contributed row)%R)
            (InvestmentCalc.projection
               0%R 1000%R 0.06%R (InvestmentCalc.return_options Cash)).
Proof.
  assert (Hi : (0 <= 0)%R) by lra.
  assert (Hs : (0 <= 1000)%R) by lra.
  assert (He : (0 <= 0.06)%R) by lra.
  assert (Hnz : (0 < 0)%R \/ (0 < 1000)%R) by (right; lra).
  repeat (split; [assumption|]).
  exact (@amounts_positive 0%R 1000%R 0.06%R Cash Hi Hs He Hnz).
Defined.

(** ** The monthly return *)

(** X17. For each return profile the monthly return the loop computes,
    [(1 + annual_return) ** (1 / 12) - 1], compounds over twelve months to
    the annual return exactly; it is positive and below a twelfth of the
    annual return. *)
Theorem monthly_return_is_geometric (selected_option : ReturnProfile) :
  let annual_return := InvestmentCalc.return_options (F:=R) selected_option in
  let monthly_return :=
    ((of_int 1 + annual_return) ** (of_int 1 / of_int 12) - of_int 1)%py in
  ((1 + monthly_return) ^ 12 = 1 + annual_return
   /\ 0 < monthly_return < annual_return / 12)%R.
Proof.
  intros annual_return monthly_return.
  change (1 + monthly_return)%R with (monthly_factor annual_return).
  assert (Hdef : monthly_return = (monthly_factor annual_return - 1)%R)
    by (unfold monthly_return, monthly_factor; cbn; lra).
  assert (Ha : (0 < annual_return)%R) by apply return_options_pos.
  assert (Hpow : (monthly_factor annual_return ^ 12 = 1 + annual_return)%R)
    by (apply monthly_factor_pow12; lra).
  pose proof (monthly_factor_gt_1 Ha) as Hgt.
  split; [exact Hpow|]. rewrite Hdef. split; [lra|].
  set (g := monthly_factor annual_return) in *.
  assert (Hx : exists x, (0 < x /\ 12 * x = annual_return)%R)
    by (exists (annual_return / 12)%R; lra).
  destruct Hx as (x & Hx & Hxa).
  replace (annual_return / 12)%R with x by lra.
  destruct (Rlt_le_dec g (1 + x)) as [Hlt|Hle]; [lra|exfalso].
  assert (Hinc : ((1 + x) ^ 12 <= g ^ 12)%R) by (apply pow_incr; lra).
  pose proof (poly 11 x Hx) as Hpoly.
  replace (INR 11) with 11%R in Hpoly by (cbn; lra).
  assert (Hstrict : (1 + 12 * x < (1 + x) ^ 12)%R).
  { change ((1 + x) ^ 12)%R with ((1 + x) * (1 + x) ^ 11)%R.
    set (P := ((1 + x) ^ 11)%R) in *. nra. }
  rewrite Hpow in Hinc.
  set (P := ((1 + x) ^ 12)%R) in *. lra.
Qed.
